(** * Course-catalogue extraction ([extract.py]): model and properties

    A shallow embedding of the line-level part of [extract.py]: the four
    compiled patterns, the helper functions [hanging_course_name],
    [get_course_code], [get_course_name], [get_course_unit],
    [get_course_desc], [get_course_pre], and the body of [extract] from the
    point where the list of lines [text] has been read.

    Strings are [string]; a character is an [ascii], read as the code point
    of the same number.  The lines [extract] works on have been filtered to
    the printable ASCII characters, so every line of a real run is
    representable. *)

From Stdlib Require Import Bool Arith Lia List Ascii String.
From Stdlib Require Import Numbers.DecimalString Sorting.Permutation.
Import ListNotations.
Open Scope string_scope.
Open Scope list_scope.
Open Scope bool_scope.
Open Scope nat_scope.

(** ** Python string operations used by the program *)

Module PyStr.

(** [str.isspace] on one character (code points below 256). *)
Definition is_space (c : ascii) : bool :=
  let n := nat_of_ascii c in
  ((9 <=? n) && (n <=? 13)) || ((28 <=? n) && (n <=? 32))
  || (n =? 133) || (n =? 160).

Definition is_upper (c : ascii) : bool :=
  let n := nat_of_ascii c in (65 <=? n) && (n <=? 90).

Definition is_digit (c : ascii) : bool :=
  let n := nat_of_ascii c in (48 <=? n) && (n <=? 57).

(** [bool(s)]: a string is true when it is not empty. *)
Definition truthy (s : string) : bool :=
  match s with EmptyString => false | String _ _ => true end.

(** [s.lstrip()] *)
Fixpoint lstrip (s : string) : string :=
  match s with
  | EmptyString => EmptyString
  | String c s' => if is_space c then lstrip s' else s
  end.

(** [s.rstrip()] *)
Fixpoint rstrip (s : string) : string :=
  match s with
  | EmptyString => EmptyString
  | String c s' =>
      match rstrip s' with
      | EmptyString => if is_space c then EmptyString else String c EmptyString
      | r => String c r
      end
  end.

(** [s.strip()] *)
Definition strip (s : string) : string := rstrip (lstrip s).

(** [needle in s] *)
Fixpoint contains (needle s : string) : bool :=
  prefix needle s ||
  match s with
  | EmptyString => false
  | String _ s' => contains needle s'
  end.

(** [s.replace(old, new)] for a non-empty [old]: every occurrence, found
    left to right without overlap, is replaced.  [skip] counts the
    characters of the occurrence just replaced that are still to be
    dropped. *)
Fixpoint replace_from (old new : string) (skip : nat) (s : string) : string :=
  match s with
  | EmptyString => EmptyString
  | String c s' =>
      match skip with
      | S n => replace_from old new n s'
      | O =>
          if prefix old s
          then (new ++ replace_from old new (String.length old - 1) s')%string
          else String c (replace_from old new 0 s')
      end
  end.

(** With an empty [old] Python puts [new] before every character and at
    the end. *)
Fixpoint intersperse (new s : string) : string :=
  match s with
  | EmptyString => new
  | String c s' => (new ++ String c (intersperse new s'))%string
  end.

Definition replace (old new s : string) : string :=
  match old with
  | EmptyString => intersperse new s
  | String _ _ => replace_from old new 0 s
  end.

(** [s.split(sep)] for a separator of one character. *)
Fixpoint split (sep : ascii) (s : string) : list string :=
  match s with
  | EmptyString => [EmptyString]
  | String c s' =>
      if Ascii.eqb c sep then EmptyString :: split sep s'
      else match split sep s' with
           | h :: t => String c h :: t
           | [] => [String c EmptyString]
           end
  end.

(** [sep.join(l)] *)
Definition join (sep : string) (l : list string) : string :=
  String.concat sep l.

(** [s[i:j]] for [0 <= i <= j]. *)
Definition slice (i j : nat) (s : string) : string :=
  substring i (j - i) s.

(** [str(n)] for a natural number. *)
Definition str_of_nat (n : nat) : string :=
  NilEmpty.string_of_uint (Nat.to_uint n).

End PyStr.

(** ** Regular expressions, matched as Python's [re] does

    The matcher is a backtracking one written with a continuation: a
    quantifier is greedy and gives characters back one at a time, an
    alternation tries its left branch first.  Quantifiers are applied to a
    class of single characters, which is all the four patterns of the
    program need. *)

Module Regex.

Inductive regex : Type :=
| Eps : regex
| Class (p : ascii -> bool) : regex
| Seq (r1 r2 : regex) : regex
| Alt (r1 r2 : regex) : regex
| Repeat (p : ascii -> bool) (lo : nat) (hi : option nat) : regex
| Group (n : nat) (r : regex) : regex
| Bol : regex
| Eol : regex.

(** Captured groups, most recent first. *)
Definition groups : Type := list (nat * string).

Fixpoint group (n : nat) (g : groups) : option string :=
  match g with
  | [] => None
  | (m, s) :: g' => if m =? n then Some s else group n g'
  end.

Definition cont (R : Type) : Type := string -> nat -> groups -> option R.

Definition may_take (hi : option nat) : bool :=
  match hi with
  | None => true
  | Some O => false
  | Some (S _) => true
  end.

Definition dec_hi (hi : option nat) : option nat :=
  match hi with
  | None => None
  | Some h => Some (pred h)
  end.

(** [p{lo,hi}], greedy: take one more character when allowed, and fall
    back to stopping here when the rest cannot be matched that way. *)
Fixpoint repeat_greedy {R} (p : ascii -> bool) (lo : nat) (hi : option nat)
         (s : string) (pos : nat) (g : groups) (k : cont R) : option R :=
  let stop := if lo =? 0 then k s pos g else None in
  match s with
  | EmptyString => stop
  | String c s' =>
      if may_take hi && p c
      then match repeat_greedy p (pred lo) (dec_hi hi) s' (S pos) g k with
           | Some r => Some r
           | None => stop
           end
      else stop
  end.

Definition at_eol (s : string) : bool :=
  match s with
  | EmptyString => true
  | String c EmptyString => Ascii.eqb c "010"
  | _ => false
  end.

Fixpoint rmatch {R} (r : regex) (s : string) (pos : nat) (g : groups)
         (k : cont R) : option R :=
  match r with
  | Eps => k s pos g
  | Class p =>
      match s with
      | EmptyString => None
      | String c s' => if p c then k s' (S pos) g else None
      end
  | Seq r1 r2 =>
      rmatch r1 s pos g (fun s1 pos1 g1 => rmatch r2 s1 pos1 g1 k)
  | Alt r1 r2 =>
      match rmatch r1 s pos g k with
      | Some x => Some x
      | None => rmatch r2 s pos g k
      end
  | Repeat p lo hi => repeat_greedy p lo hi s pos g k
  | Group n r1 =>
      rmatch r1 s pos g
        (fun s1 pos1 g1 => k s1 pos1 ((n, substring 0 (pos1 - pos) s) :: g1))
  | Bol => if pos =? 0 then k s pos g else None
  | Eol => if at_eol s then k s pos g else None
  end.

(** A match object: where the match ends and what the groups hold. *)
Definition done : cont (nat * groups) := fun _ pos g => Some (pos, g).

(** [pattern.match(s)] *)
Definition py_match (r : regex) (s : string) : option (nat * groups) :=
  rmatch r s 0 [] done.

(** [pattern.search(s)]: the first position from which the pattern
    matches. *)
Fixpoint search_from (r : regex) (s : string) (pos : nat)
  : option (nat * groups) :=
  match rmatch r s pos [] done with
  | Some m => Some m
  | None =>
      match s with
      | EmptyString => None
      | String _ s' => search_from r s' (S pos)
      end
  end.

Definition py_search (r : regex) (s : string) : option (nat * groups) :=
  search_from r s 0.

Definition Chr (c : ascii) : regex := Class (Ascii.eqb c).

Fixpoint Lit (s : string) : regex :=
  match s with
  | EmptyString => Eps
  | String c s' => Seq (Chr c) (Lit s')
  end.

(** [.] without DOTALL: any character but a newline. *)
Definition Dot : ascii -> bool := fun c => negb (Ascii.eqb c "010").

End Regex.

Import PyStr Regex.

(** ** The program: [extract.py] *)

(** *** Compiled patterns *)

(** The character class of the title part of [COURSE_NAME_PATTERN]: digits,
    capitals, white space and the characters - ( ) & + ? , : *)
Definition title_char (c : ascii) : bool :=
  is_digit c || is_upper c || is_space c
  || Ascii.eqb c "-" || Ascii.eqb c "(" || Ascii.eqb c ")" || Ascii.eqb c "&"
  || Ascii.eqb c "+" || Ascii.eqb c "?" || Ascii.eqb c "," || Ascii.eqb c ":".

(** [[A-Z]{2,4}\d{4}], the body of the one group of both code patterns. *)
Definition code_body : regex :=
  Seq (Repeat is_upper 2 (Some 4)) (Repeat is_digit 4 (Some 4)).

(** The pattern [([A-Z]{2,4}\d{4})]. *)
Definition COURSE_CODE_PATTERN : regex := Group 1 code_body.

(** The pattern [^] group 1 (the code), one space, group 2 (any number of
    title characters), [$]. *)
Definition COURSE_NAME_PATTERN : regex :=
  Seq Bol
    (Seq (Group 1 code_body)
       (Seq (Chr " ")
          (Seq (Group 2 (Repeat title_char 0 None)) Eol))).

(** The unit pattern: an opening parenthesis, one digit, any white space,
    [unit] or [UNIT], any characters, a closing parenthesis. *)
Definition UNIT_PATTERN : regex :=
  Seq (Chr "(")
    (Seq (Repeat is_digit 1 (Some 1))
       (Seq (Repeat is_space 0 None)
          (Seq (Group 1 (Alt (Lit "unit") (Lit "UNIT")))
             (Seq (Repeat Dot 0 None) (Chr ")"))))).

(** The pattern [\d+ / \d+]. *)
Definition PAGE_NUMBER_PATTERN : regex :=
  Seq (Repeat is_digit 1 None) (Seq (Lit " / ") (Repeat is_digit 1 None)).

(** The truth value of a match object. *)
Definition matched {A} (m : option A) : bool :=
  match m with Some _ => true | None => false end.

(** *** Helper functions *)

Definition description_markers : list string :=
  ["Course Description:"; "Course  Description"; "Description:";
   "Course Description"].

(** [any(marker in line for marker in description_markers)] *)
Definition any_marker (line : string) : bool :=
  existsb (fun marker => contains marker line) description_markers.

(** The loop of [hanging_course_name], [buffer] being the list built so
    far. *)
Fixpoint hanging_loop (course_raw buffer : list string) : list string :=
  match course_raw with
  | [] => buffer
  | line :: rest =>
      if contains "(" line then buffer
      else if truthy line then hanging_loop rest (buffer ++ [line])
      else hanging_loop rest buffer
  end.

Definition hanging_course_name (course_raw : list string) : list string :=
  hanging_loop course_raw [].

Definition get_course_code (course_name : string) : option string :=
  match py_search COURSE_CODE_PATTERN course_name with
  | Some (_, g) => group 1 g
  | None => None
  end.

(** [not course_code]: true for [None] and for the empty string. *)
Definition falsy_code (cc : option string) : bool :=
  match cc with
  | None => true
  | Some c => negb (truthy c)
  end.

Definition get_course_name (course_name : string) (course_raw : list string)
  : string :=
  match get_course_code course_name with
  | Some course_code =>
      if truthy course_code then
        let raw_course_name := replace course_code "" course_name in
        let hanging := hanging_course_name course_raw in
        strip (join " " ([strip raw_course_name] ++ hanging))
      else strip course_name
  | None => strip course_name
  end.

Fixpoint get_course_unit (course_raw : list string) : option string :=
  match course_raw with
  | [] => None
  | line :: rest =>
      let stripped_line := strip line in
      if matched (py_match UNIT_PATTERN stripped_line)
      then Some (slice 1 2 stripped_line)
      else get_course_unit rest
  end.

(** The loop of [get_course_desc]; the buffer only grows at its end, so the
    lines appended are returned in order. *)
Fixpoint desc_loop (course_raw : list string) (found_description : bool)
  : list string :=
  match course_raw with
  | [] => []
  | line :: rest =>
      let found := if any_marker line then true else found_description in
      if found then line :: desc_loop rest found else desc_loop rest found
  end.

Definition get_course_desc (course_raw : list string) : list string :=
  desc_loop course_raw false.

Definition prereq_marker : string := "Pre-requisite(s):".

(** The loop of [get_course_pre]: the fragments appended to [buffer], in
    order, up to the [break]. *)
Fixpoint pre_loop (course_raw : list string) (found_prereq : bool)
  : list string :=
  match course_raw with
  | [] => []
  | line :: rest =>
      let found := if contains prereq_marker line then true else found_prereq in
      if any_marker line then []
      else if found then
        (if contains prereq_marker line
         then replace prereq_marker "" line
         else line) :: pre_loop rest found
      else pre_loop rest found
  end.

Definition get_course_pre (course_raw : list string) : string :=
  join "" (pre_loop course_raw false).

(** *** Dictionaries

    A Python [dict] keeps its keys in the order of their first insertion;
    assigning to a key that is present changes the value in place. *)

Definition dict (V : Type) : Type := list (string * V).

Fixpoint dict_get {V} (k : string) (d : dict V) : option V :=
  match d with
  | [] => None
  | (k', v) :: d' => if String.eqb k' k then Some v else dict_get k d'
  end.

Fixpoint dict_set {V} (k : string) (v : V) (d : dict V) : dict V :=
  match d with
  | [] => [(k, v)]
  | (k', v') :: d' =>
      if String.eqb k' k then (k', v) :: d' else (k', v') :: dict_set k v d'
  end.

(** *** Logging *)

Inductive level : Type := INFO | WARNING | ERROR.

Definition log_record : Type := (level * string)%type.

(** *** The record built for one course *)

Module payload.
Record t : Type := mk {
  course_code : string;
  course_name : string;
  unit : option string;
  prerequisite : string;
  description : list string
}.
End payload.

(** *** The segmenting loop of [extract] *)

Record seg_state : Type := mk_seg {
  cn_list : list string;
  cd_list : list (list string);
  new_flag : nat;
  temp_c_list : list string
}.

Definition seg_init : seg_state :=
  {| cn_list := []; cd_list := []; new_flag := 0; temp_c_list := [] |}.

Definition is_course_name_line (line : string) : bool :=
  matched (py_match COURSE_NAME_PATTERN line).

(** The body of the loop over [text]. *)
Definition seg_step (st : seg_state) (line : string) : seg_state :=
  if is_course_name_line line then
    if new_flag st =? 1 then
      {| cn_list := cn_list st; cd_list := cd_list st;
         new_flag := new_flag st;
         temp_c_list := temp_c_list st ++ [line] |}
    else
      let flushed := match cn_list st with [] => false | _ :: _ => true end in
      {| cn_list := cn_list st ++ [line];
         cd_list := if flushed then cd_list st ++ [temp_c_list st]
                    else cd_list st;
         new_flag := 1;
         temp_c_list := if flushed then [] else temp_c_list st |}
  else if any_marker line then
    {| cn_list := cn_list st; cd_list := cd_list st;
       new_flag := 0;
       temp_c_list := temp_c_list st ++ [line] |}
  else
    {| cn_list := cn_list st; cd_list := cd_list st;
       new_flag := new_flag st;
       temp_c_list := temp_c_list st ++ [line] |}.

Definition seg_loop (st : seg_state) (text : list string) : seg_state :=
  fold_left seg_step text st.

(** The loop followed by [cd_list.append(temp_c_list)]: the course-name
    lines and the segments. *)
Definition segment (text : list string) : list string * list (list string) :=
  let st := seg_loop seg_init text in
  (cn_list st, cd_list st ++ [temp_c_list st]).

(** *** The rest of [extract] *)

(** The loop counting the lines that start with a course code. *)
Definition count_code (cc_dict : dict nat) (line : string) : dict nat :=
  if matched (py_match COURSE_CODE_PATTERN line) then
    match py_search COURSE_CODE_PATTERN line with
    | Some (_, g) =>
        match group 1 g with
        | Some code =>
            dict_set code (S (match dict_get code cc_dict with
                              | Some n => n
                              | None => 0
                              end)) cc_dict
        | None => cc_dict
        end
    | None => cc_dict
    end
  else cc_dict.

(** The body of the loop over [zip(cn_list, cd_list)]. *)
Definition assemble_step (acc : dict payload.t * list log_record)
           (nr : string * list string) : dict payload.t * list log_record :=
  let '(course_dict, log) := acc in
  let '(n, r) := nr in
  match get_course_code n with
  | Some cc =>
      if truthy cc then
        (dict_set cc
           {| payload.course_code := cc;
              payload.course_name := get_course_name n r;
              payload.unit := get_course_unit r;
              payload.prerequisite := get_course_pre r;
              payload.description := get_course_desc r |} course_dict,
         log)
      else
        (course_dict,
         log ++ [(WARNING, "Could not extract course code from: " ++ n)%string])
  | None =>
      (course_dict,
       log ++ [(WARNING, "Could not extract course code from: " ++ n)%string])
  end.

(** A cell handed to [csv.writer]: a string or [None]. *)
Definition cell : Type := option string.

(** The value written in the prerequisite column. *)
Definition temp_prerequisite (prerequisite : string) : string :=
  let temp := if truthy prerequisite then strip prerequisite else "N/A" in
  if contains "None" temp || contains "None Course" temp then "N/A" else temp.

Definition records_row (v : payload.t) : list cell :=
  [Some (payload.course_code v); Some (payload.course_name v);
   Some (temp_prerequisite (payload.prerequisite v)); payload.unit v].

(** The value that replaces [code_desc_dict[k]]. *)
Definition clean_description (v : list string) : string :=
  let tv :=
    filter (fun line => negb (matched (py_match PAGE_NUMBER_PATTERN (strip line)))) v in
  strip (join "" (tl (split ":" (join "" tv)))).

Definition description_row (kv : string * payload.t) : list cell :=
  [Some (fst kv); Some (clean_description (payload.description (snd kv)))].

(** What a run of [extract] leaves behind: the dictionary it returns, the
    lines of the raw file, the rows handed to the two TSV writers (when
    [save_tsv] is set) and the log records, in order. *)
Record extract_result : Type := mk_result {
  returned : dict payload.t;
  raw_file : string * list string;
  records_tsv : option (string * list (list cell));
  description_tsv : option (string * list (list cell));
  log : list log_record
}.

(** [extract] from the point where [text] has been read from the PDF (the
    file is opened and filtered before that; writing files is taken to
    succeed). *)
Definition extract (text : list string) (filename_prefix : string)
           (save_tsv : bool) : extract_result :=
  let RAW_FILENAME := (filename_prefix ++ "-raw_lines.txt")%string in
  let log1 :=
    [(INFO, "There are " ++ str_of_nat (List.length text)
            ++ " lines of text in the PDF, saving to " ++ RAW_FILENAME)%string;
     (INFO, "Done writing raw lines")] in
  let cc_dict := fold_left count_code text [] in
  let log2 :=
    [(INFO, "Found " ++ str_of_nat (List.length cc_dict)
            ++ " matched course code")%string] in
  let '(cn, cd) := segment text in
  let log3 :=
    [(INFO, "Found " ++ str_of_nat (List.length cn) ++ " Course Name, "
            ++ str_of_nat (List.length cd)
            ++ " Course Description (Two number equal means good)")%string] in
  let '(course_dict, log4) := fold_left assemble_step (combine cn cd) ([], []) in
  let base := log1 ++ log2 ++ log3 ++ log4 in
  if save_tsv then
    {| returned := course_dict;
       raw_file := (RAW_FILENAME, text);
       records_tsv :=
         Some ((filename_prefix ++ "-records.tsv")%string,
               map Some ["course_code"; "course_name"; "prerequisite"; "unit"]
               :: map (fun kv => records_row (snd kv)) course_dict);
       description_tsv :=
         Some ((filename_prefix ++ "-description.tsv")%string,
               map Some ["course_code"; "course_description"]
               :: map description_row course_dict);
       log := base ++ [(INFO, "Saving Course Records");
                       (INFO, "Saving Course Descriptions");
                       (INFO, "Done, Exiting")] |}
  else
    {| returned := course_dict;
       raw_file := (RAW_FILENAME, text);
       records_tsv := None;
       description_tsv := None;
       log := base |}.

Definition scenario_A : list string :=
  ["ACCT1013 PRINCIPLES OF ACCOUNTING"; "(3 units)"; "Pre-requisite(s): None";
   "Course Description: This course covers basics."].

(** *** Definitions used to state the properties *)

(** Every character of [s] satisfies [p]. *)
Fixpoint all_chars (p : ascii -> bool) (s : string) : bool :=
  match s with
  | EmptyString => true
  | String c s' => p c && all_chars p s'
  end.

(** A character a course-name line can hold. *)
Definition name_line_char (c : ascii) : bool :=
  is_upper c || is_digit c || title_char c.

(** One course as the catalogue lays it out: the header line, the lines up
    to the first description marker, the marker line, and the lines after
    it up to the next header. *)
Record block : Type := mk_block {
  header : string;
  before_marker : list string;
  marker_line : string;
  after_marker : list string
}.

Definition block_body (b : block) : list string :=
  before_marker b ++ marker_line b :: after_marker b.

Definition block_lines (b : block) : list string :=
  header b :: block_body b.

(** The header is a course-name line, no line before the marker line holds
    a marker, the marker line holds one, and no line after it is a
    course-name line. *)
Definition block_ok (b : block) : bool :=
  is_course_name_line (header b)
  && forallb (fun l => negb (any_marker l)) (before_marker b)
  && any_marker (marker_line b)
  && forallb (fun l => negb (is_course_name_line l)) (after_marker b).

(** A document: lines before the first header, none of them a course-name
    line, then the courses. *)
Definition document (preamble : list string) (blocks : list block)
  : list string :=
  preamble ++ List.concat (map block_lines blocks).

Definition no_name_lines (ls : list string) : bool :=
  forallb (fun l => negb (is_course_name_line l)) ls.

Definition no_marker_lines (ls : list string) : bool :=
  forallb (fun l => negb (any_marker l)) ls.

(** The message [extract] logs after the segmenting loop. *)
Definition counts_message (names segments : nat) : string :=
  ("Found " ++ str_of_nat names ++ " Course Name, " ++ str_of_nat segments
   ++ " Course Description (Two number equal means good)")%string.

(** What the loop keeps true, [seen] being the lines read so far: before
    the first header nothing is flushed and the buffer holds every line;
    afterwards the flushed segments are one fewer than the headers. *)
Definition seg_inv (seen : list string) (st : seg_state) : Prop :=
  match cn_list st with
  | [] => cd_list st = [] /\ temp_c_list st = seen
  | _ :: _ => List.length (cd_list st) + 1 = List.length (cn_list st)
  end.

(** The lines before the first one that holds an opening parenthesis. *)
Fixpoint before_paren (course_raw : list string) : list string :=
  match course_raw with
  | [] => []
  | line :: rest =>
      if contains "(" line then [] else line :: before_paren rest
  end.

Definition scenario_B : list string :=
  ["BUSA2003 ADVANCED"; "STRATEGIC MANAGEMENT"; "(3 units)"].

Definition block_A : block :=
  {| header := "ACCT1013 PRINCIPLES OF ACCOUNTING";
     before_marker := ["(3 units)"; "Pre-requisite(s): None"];
     marker_line := "Course Description: This course covers basics.";
     after_marker := [] |}.

Definition block_B : block :=
  {| header := "BUSA2003 ADVANCED";
     before_marker := ["STRATEGIC MANAGEMENT"; "(3 units)";
                       "Pre-requisite(s): ACCT1013 PRINCIPLES OF ACCOUNTING"];
     marker_line := "Course Description: Strategy.";
     after_marker := ["12 / 40"] |}.

(** **** The prerequisite and the description, worded as operations on the
    segment *)

(** A line with the prerequisite marker taken out of it. *)
Definition strip_marker (line : string) : string :=
  if contains prereq_marker line then replace prereq_marker "" line else line.

(** The lines before the first description-marker line. *)
Fixpoint before_description (course_raw : list string) : list string :=
  match course_raw with
  | [] => []
  | line :: rest =>
      if any_marker line then [] else line :: before_description rest
  end.

(** The lines from the first prerequisite-marker line on. *)
Fixpoint from_prerequisite (course_raw : list string) : list string :=
  match course_raw with
  | [] => []
  | line :: rest =>
      if contains prereq_marker line then course_raw
      else from_prerequisite rest
  end.

(** The lines from the prerequisite-marker line up to, and without, the
    first description-marker line, the marker taken out, concatenated and
    trimmed. *)
Definition prerequisite_text (course_raw : list string) : string :=
  strip (join "" (map strip_marker
                    (from_prerequisite (before_description course_raw)))).

(** The prerequisite value in the specification's words: N/A when that
    text is empty or holds None (or None Course), the text otherwise. *)
Definition prerequisite_as_specified (course_raw : list string) : string :=
  let t := prerequisite_text course_raw in
  if negb (truthy t) || contains "None" t || contains "None Course" t
  then "N/A" else t.

(** The lines from the first description-marker line on. *)
Fixpoint from_first_marker (course_raw : list string) : list string :=
  match course_raw with
  | [] => []
  | line :: rest =>
      if any_marker line then course_raw else from_first_marker rest
  end.

(** The test with which [extract] drops page-number lines. *)
Definition is_page_number (line : string) : bool :=
  matched (py_match PAGE_NUMBER_PATTERN (strip line)).

(** What follows the first colon of [s] (nothing when [s] has none). *)
Fixpoint after_first_colon (s : string) : string :=
  match s with
  | EmptyString => EmptyString
  | String c s' => if Ascii.eqb c ":" then s' else after_first_colon s'
  end.

(** [s] without its colons. *)
Fixpoint remove_colons (s : string) : string :=
  match s with
  | EmptyString => EmptyString
  | String c s' =>
      if Ascii.eqb c ":" then remove_colons s' else String c (remove_colons s')
  end.

(** The description in the specification's words: the lines from the first
    marker line on, page-number lines dropped, joined, cut after the first
    colon (later colons kept), trimmed. *)
Definition description_as_specified (course_raw : list string) : string :=
  strip (after_first_colon
           (join "" (filter (fun line => negb (is_page_number line))
                       (from_first_marker course_raw)))).

Definition blank_prerequisite_segment : list string :=
  ["(3 units)"; "Pre-requisite(s): ";
   "Course Description: This course covers basics."].

Definition colon_segment : list string :=
  ["(3 units)"; "Pre-requisite(s): None";
   "Course Description: Topics: ledgers and audits."].

Definition scenario_E_segment : list string :=
  ["(3 units)"; "Pre-requisite(s): None Course"; " required";
   "Course Description: This course covers basics."].

(** *** Around the parse: reading the lines, naming the files

    [string.printable], [os.path.basename] and [os.path.splitext] are
    Python's own; they are written out here as the library defines them
    for POSIX paths. *)

(** [s.rfind(c)] for one character: the last index of [c], [None] standing
    for -1. *)
Fixpoint rfind (c : ascii) (s : string) : option nat :=
  match s with
  | EmptyString => None
  | String x s' =>
      match rfind c s' with
      | Some i => Some (S i)
      | None => if Ascii.eqb x c then Some 0 else None
      end
  end.

(** [s[i:]] *)
Fixpoint drop_chars (i : nat) (s : string) : string :=
  match i, s with
  | O, _ => s
  | S _, EmptyString => EmptyString
  | S i', String _ s' => drop_chars i' s'
  end.

(** [s[:i]] *)
Fixpoint take_chars (i : nat) (s : string) : string :=
  match i, s with
  | O, _ => EmptyString
  | S _, EmptyString => EmptyString
  | S i', String c s' => String c (take_chars i' s')
  end.

(** [os.path.basename(p)]: what follows the last slash. *)
Definition basename (p : string) : string :=
  match rfind "/" p with
  | Some i => drop_chars (S i) p
  | None => p
  end.

(** The loop of [splitext] that skips leading dots: is one of the [n]
    characters from [filenameIndex] on not a dot? *)
Fixpoint has_name_before_dot (p : string) (filenameIndex n : nat) : bool :=
  match n with
  | O => false
  | S n' =>
      if negb (String.eqb (slice filenameIndex (S filenameIndex) p) ".")
      then true
      else has_name_before_dot p (S filenameIndex) n'
  end.

(** [os.path.splitext(p)]: root and extension. *)
Definition splitext (p : string) : string * string :=
  let sepIndex := rfind "/" p in
  let dotIndex := rfind "." p in
  let filenameIndex := match sepIndex with Some s => S s | None => 0 end in
  match dotIndex with
  | Some d =>
      if (filenameIndex <=? d)
         && has_name_before_dot p filenameIndex (d - filenameIndex)
      then (take_chars d p, drop_chars d p)
      else (p, EmptyString)
  | None => (p, EmptyString)
  end.

Definition extract_filename_prefix (pdf_filename : string) : string :=
  let name_without_ext := fst (splitext (basename pdf_filename)) in
  if prefix "cd-" name_without_ext
  then drop_chars 3 name_without_ext
  else name_without_ext.

Definition SKIP_LINES : nat := 6.

(** [string.printable]: digits, letters, punctuation, white space. *)
Definition string_printable : string :=
  ("0123456789abcdefghijklmnopqrstuvwxyzABCDEFGHIJKLMNOPQRSTUVWXYZ!"
   ++ String (ascii_of_nat 34)
        ("#$%&'()*+,-./:;<=>?@[\]^_`{|}~ "
         ++ String "009" (String "010" (String "013"
              (String "011" (String "012" EmptyString))))))%string.

(** A set of characters, and [set.remove]. *)
Definition set_remove (c : ascii) (l : list ascii) : list ascii :=
  filter (fun x => negb (Ascii.eqb x c)) l.

(** [PRINTABLE] once the five control characters are removed. *)
Definition PRINTABLE : list ascii :=
  set_remove "013"
    (set_remove "012"
       (set_remove "011"
          (set_remove "010"
             (set_remove "009" (list_ascii_of_string string_printable))))).

Definition in_PRINTABLE (c : ascii) : bool := existsb (Ascii.eqb c) PRINTABLE.

Fixpoint filter_chars (p : ascii -> bool) (s : string) : string :=
  match s with
  | EmptyString => EmptyString
  | String c s' =>
      if p c then String c (filter_chars p s') else filter_chars p s'
  end.

(** The lines [extract] works on, from the texts of the pages: the texts
    joined by a form feed, split at the line breaks, each line filtered,
    the first [SKIP_LINES] lines left out. *)
Definition read_lines (pages : list string) : list string :=
  skipn SKIP_LINES
    (map (filter_chars in_PRINTABLE)
       (split "010" (join (String "012" EmptyString) pages))).

(** [main]: the prefix given on the command line when there is one (and it
    is not empty), the one made from the file name otherwise; then
    [extract]. *)
Definition main (pages : list string) (pdf_filename : string)
           (args_prefix : option string) (args_tsv : bool) : extract_result :=
  let filename_prefix :=
    match args_prefix with
    | Some p => if truthy p then p else extract_filename_prefix pdf_filename
    | None => extract_filename_prefix pdf_filename
    end in
  extract (read_lines pages) filename_prefix args_tsv.

(** The characters from the space to the tilde. *)
Definition printable_ascii (c : ascii) : bool :=
  let n := nat_of_ascii c in (32 <=? n) && (n <=? 126).


(** The text of a course code: two to four capitals, then four digits. *)
Definition code_shape (code : string) : Prop :=
  exists L D,
    code = (L ++ D)%string /\
    all_chars is_upper L = true /\ 2 <= String.length L <= 4 /\
    all_chars is_digit D = true /\ String.length D = 4.

(** The record [extract] builds for the code [cc] from a header and its
    segment. *)
Definition build_payload (cc n : string) (r : list string) : payload.t :=
  {| payload.course_code := cc;
     payload.course_name := get_course_name n r;
     payload.unit := get_course_unit r;
     payload.prerequisite := get_course_pre r;
     payload.description := get_course_desc r |}.

Definition has_code (cc n : string) : bool :=
  match get_course_code n with
  | Some c => String.eqb c cc
  | None => false
  end.

(** The last of the pairs whose header carries the code [cc]. *)
Fixpoint last_with_code (cc : string) (pairs : list (string * list string))
  : option (string * list string) :=
  match pairs with
  | [] => None
  | (n, r) :: rest =>
      match last_with_code cc rest with
      | Some p => Some p
      | None => if has_code cc n then Some (n, r) else None
      end
  end.

(** The header-and-segment pairs [extract] walks through. *)
Definition pairs_of (text : list string) : list (string * list string) :=
  combine (fst (segment text)) (snd (segment text)).

(** A string that [strip] leaves as it is. *)
Definition trimmed (s : string) : Prop := strip s = s.

Definition not_colon (c : ascii) : bool := negb (Ascii.eqb c ":").

(** How often [c] occurs in [s]. *)
Fixpoint count_char (c : ascii) (s : string) : nat :=
  match s with
  | EmptyString => 0
  | String x s' => (if Ascii.eqb x c then 1 else 0) + count_char c s'
  end.

Definition not_slash (c : ascii) : bool := negb (Ascii.eqb c "/").

Definition not_dot (c : ascii) : bool := negb (Ascii.eqb c ".").

(** The only white space the character may be is the space. *)
Definition space_or_no_space (c : ascii) : bool :=
  negb (is_space c) || Ascii.eqb c " ".

(** A goal that asks for the success of a match with a fall-back is
    settled by the success of its first branch. *)
Ltac through_match :=
  match goal with
  | |- exists _, match ?x with Some _ => _ | None => _ end = Some _ =>
      let Hx := fresh "Hx" in
      let r0 := fresh "r" in
      enough (Hx : exists r, x = Some r) by (destruct Hx as [r0 ->]; eauto)
  end.

(** * Properties *)

(** ** Strings *)

Lemma append_assoc (a b c : string) : ((a ++ b) ++ c = a ++ (b ++ c))%string.
Proof. induction a as [|x a IH]; simpl; [reflexivity | now rewrite IH]. Qed.

Lemma append_empty_r (a : string) : (a ++ "")%string = a.
Proof. induction a as [|x a IH]; simpl; [reflexivity | now rewrite IH]. Qed.

Lemma length_append (a b : string) :
  String.length (a ++ b) = String.length a + String.length b.
Proof. induction a as [|x a IH]; simpl; [reflexivity | now rewrite IH]. Qed.

Lemma substring_0_append (a b : string) :
  substring 0 (String.length a) (a ++ b) = a.
Proof.
  induction a as [|x a IH]; simpl.
  - destruct b; reflexivity.
  - now rewrite IH.
Qed.

Lemma all_chars_app p (a b : string) :
  all_chars p (a ++ b) = all_chars p a && all_chars p b.
Proof.
  induction a as [|x a IH]; simpl; [reflexivity|].
  now rewrite IH, andb_assoc.
Qed.

Lemma all_chars_weaken (p q : ascii -> bool) (s : string) :
  (forall c, p c = true -> q c = true) ->
  all_chars p s = true -> all_chars q s = true.
Proof.
  intros Hpq. induction s as [|x s IH]; simpl; [reflexivity|].
  intros H. apply andb_prop in H as [Hx Hs].
  now rewrite (Hpq _ Hx), (IH Hs).
Qed.

Lemma all_chars_prefix p (m s : string) :
  prefix m s = true -> all_chars p s = true -> all_chars p m = true.
Proof.
  revert s. induction m as [|x m IH]; intros s Hpre Hall; [reflexivity|].
  destruct s as [|y s]; simpl in Hpre; [discriminate|].
  destruct (ascii_dec x y) as [->|]; [|discriminate].
  simpl in *. apply andb_prop in Hall as [Hy Hs].
  now rewrite Hy, (IH s Hpre Hs).
Qed.

Lemma all_chars_contains p (m s : string) :
  contains m s = true -> all_chars p s = true -> all_chars p m = true.
Proof.
  induction s as [|y s IH]; intros Hc Hall.
  - cbn [contains] in Hc. rewrite orb_false_r in Hc.
    eapply all_chars_prefix; eauto.
  - cbn [contains] in Hc. apply orb_prop in Hc as [Hc|Hc].
    + eapply all_chars_prefix; eauto.
    + simpl in Hall. apply andb_prop in Hall as [_ Hs]. auto.
Qed.

(** ** The matcher *)

Lemma repeat_greedy_inv {R} p (s : string) :
  forall lo hi pos g (k : cont R) r,
    repeat_greedy p lo hi s pos g k = Some r ->
    exists a t,
      s = (a ++ t)%string /\ all_chars p a = true /\ lo <= String.length a /\
      (forall h, hi = Some h -> String.length a <= h) /\
      k t (pos + String.length a) g = Some r.
Proof.
  assert (Hstop : forall (s : string) lo hi pos g (k : cont R) r,
             (if lo =? 0 then k s pos g else None) = Some r ->
             exists a t,
               s = (a ++ t)%string /\ all_chars p a = true /\
               lo <= String.length a /\
               (forall h, hi = Some h -> String.length a <= h) /\
               k t (pos + String.length a) g = Some r).
  { intros s0 lo hi pos g k r H.
    destruct (lo =? 0) eqn:E; [|discriminate].
    apply Nat.eqb_eq in E. exists EmptyString, s0. simpl.
    rewrite Nat.add_0_r. repeat split; auto; try lia. }
  induction s as [|c s IH]; intros lo hi pos g k r H.
  - simpl in H. eapply Hstop; eauto.
  - cbn [repeat_greedy] in H.
    destruct (may_take hi && p c) eqn:E; [|eapply Hstop; eauto].
    destruct (repeat_greedy p (pred lo) (dec_hi hi) s (S pos) g k) eqn:E2;
      [|eapply Hstop; eauto].
    inversion H; subst r0. clear H.
    apply IH in E2 as (a & t & -> & Ha & Hlo & Hhi & Hk).
    apply andb_prop in E as [Ht Hc].
    exists (String c a), t. simpl. rewrite Hc, Ha.
    repeat split; auto; try lia.
    + intros h ->. destruct h as [|h]; [discriminate|].
      specialize (Hhi h eq_refl). lia.
    + now rewrite Nat.add_succ_r.
Qed.

Lemma repeat_greedy_exact {R} p (a : string) :
  forall t pos g (k : cont R),
    all_chars p a = true ->
    repeat_greedy p (String.length a) (Some (String.length a)) (a ++ t) pos g k
    = k t (pos + String.length a) g.
Proof.
  induction a as [|c a IH]; intros t pos g k Ha.
  - simpl. rewrite Nat.add_0_r. destruct t; reflexivity.
  - simpl in Ha. apply andb_prop in Ha as [Hc Ha].
    cbn [append String.length repeat_greedy may_take dec_hi pred].
    rewrite Hc, (IH _ _ _ _ Ha), Nat.add_succ_r. simpl.
    now destruct (k t (S (pos + String.length a)) g).
Qed.

(** A greedy quantifier that has taken all it may, or stands before a
    character outside its class, stops there when the rest matches. *)
Lemma repeat_greedy_max {R} p (a : string) :
  forall t lo hi pos g (k : cont R) r,
    all_chars p a = true ->
    lo <= String.length a <= hi ->
    String.length a = hi \/
      match t with EmptyString => True | String c _ => p c = false end ->
    k t (pos + String.length a) g = Some r ->
    repeat_greedy p lo (Some hi) (a ++ t) pos g k = Some r.
Proof.
  induction a as [|c a IH]; intros t lo hi pos g k r Ha Hlen Hend Hk.
  - simpl in *. rewrite Nat.add_0_r in Hk.
    assert (lo = 0) as -> by lia. simpl.
    destruct t as [|c t]; [exact Hk|].
    destruct Hend as [<-|Hc]; simpl; [exact Hk|].
    rewrite Hc, andb_false_r. exact Hk.
  - simpl in Ha. apply andb_prop in Ha as [Hc Ha].
    cbn [String.length] in *. destruct hi as [|hi]; [lia|].
    cbn [append repeat_greedy may_take dec_hi pred]. rewrite Hc. simpl.
    erewrite IH; eauto; try lia.
    + destruct Hend as [E|E]; [left; lia | right; exact E].
    + now rewrite Nat.add_succ_r in Hk.
Qed.

(** ** Course-name lines and course codes *)

Lemma name_line_shape (line : string) (pos : nat) (g : groups) :
  py_match COURSE_NAME_PATTERN line = Some (pos, g) ->
  exists L D rest,
    line = (L ++ D ++ String " " rest)%string /\
    all_chars is_upper L = true /\ 2 <= String.length L <= 4 /\
    all_chars is_digit D = true /\ String.length D = 4 /\
    all_chars title_char rest = true /\
    group 1 g = Some (L ++ D)%string.
Proof.
  unfold py_match, COURSE_NAME_PATTERN, code_body, Chr.
  cbn [rmatch Nat.eqb]. intros H.
  apply repeat_greedy_inv in H as (L & t & -> & HL & HL2 & HL4 & H).
  apply repeat_greedy_inv in H as (D & t' & -> & HD & HD4 & HD4' & H).
  destruct t' as [|c t']; [discriminate|].
  destruct (Ascii.eqb " " c) eqn:Ec; [|discriminate].
  apply Ascii.eqb_eq in Ec. subst c.
  apply repeat_greedy_inv in H as (T & e & -> & HT & _ & _ & H).
  destruct (at_eol e) eqn:He; [|discriminate].
  unfold done in H. inversion H; subst pos g. clear H.
  specialize (HL4 4 eq_refl). specialize (HD4' 4 eq_refl).
  exists L, D, (T ++ e)%string. repeat split; auto; try lia.
  - rewrite all_chars_app, HT. simpl.
    destruct e as [|c [|c' e]]; simpl in *; try discriminate; auto.
    apply Ascii.eqb_eq in He. subst c. reflexivity.
  - cbn [group Nat.eqb]. f_equal.
    rewrite Nat.sub_0_r, <- length_append, <- append_assoc.
    apply substring_0_append.
Qed.

Lemma search_code_at_start (L D t : string) :
  all_chars is_upper L = true -> 2 <= String.length L <= 4 ->
  all_chars is_digit D = true -> String.length D = 4 ->
  get_course_code (L ++ D ++ t) = Some (L ++ D)%string.
Proof.
  intros HL HLn HD HDn.
  unfold get_course_code, py_search.
  assert (E : rmatch COURSE_CODE_PATTERN (L ++ D ++ t) 0 [] done
              = Some (String.length (L ++ D), [(1, (L ++ D)%string)])).
  { unfold COURSE_CODE_PATTERN, code_body. cbn [rmatch].
    apply repeat_greedy_max; auto.
    - right. destruct D as [|d D]; [discriminate|]. simpl in HD |- *.
      apply andb_prop in HD as [Hd _].
      unfold is_digit, is_upper in *.
      apply andb_prop in Hd as [_ Hd]. apply Nat.leb_le in Hd.
      apply andb_false_iff. left. apply Nat.leb_gt. lia.
    - replace 4 with (String.length D) at 1 2 by exact HDn.
      rewrite repeat_greedy_exact by exact HD.
      unfold done. rewrite Nat.sub_0_r, Nat.add_0_l, <- length_append.
      rewrite <- append_assoc, substring_0_append. reflexivity. }
  destruct (L ++ D ++ t)%string; cbn [search_from]; rewrite E; reflexivity.
Qed.

Lemma name_line_code (line : string) :
  is_course_name_line line = true ->
  exists code,
    get_course_code line = Some code /\ truthy code = true /\
    all_chars name_line_char line = true.
Proof.
  unfold is_course_name_line. intros H.
  destruct (py_match COURSE_NAME_PATTERN line) as [[pos g]|] eqn:E;
    [|discriminate].
  apply name_line_shape in E as (L & D & rest & -> & HL & HLn & HD & HDn & HT & _).
  exists (L ++ D)%string. split; [|split].
  - now apply search_code_at_start.
  - destruct L; simpl in *; [lia | reflexivity].
  - assert (HL' : all_chars name_line_char L = true).
    { apply (all_chars_weaken is_upper); auto.
      unfold name_line_char. now intros c ->. }
    assert (HD' : all_chars name_line_char D = true).
    { apply (all_chars_weaken is_digit); auto.
      unfold name_line_char. intros c ->. now rewrite orb_true_r. }
    assert (HT' : all_chars name_line_char rest = true).
    { apply (all_chars_weaken title_char); auto.
      unfold name_line_char. intros c ->. now rewrite orb_true_r. }
    rewrite !all_chars_app. cbn [all_chars].
    rewrite HL', HD', HT'. reflexivity.
Qed.

(** No description marker fits in a course-name line: each holds a small
    letter. *)
Lemma name_line_no_marker (line : string) :
  any_marker line = true -> is_course_name_line line = false.
Proof.
  intros Hm. destruct (is_course_name_line line) eqn:E; [|reflexivity].
  apply name_line_code in E as (_ & _ & _ & Hall).
  unfold any_marker in Hm. apply existsb_exists in Hm as (m & Hin & Hc).
  pose proof (all_chars_contains _ _ _ Hc Hall) as Hbad.
  simpl in Hin.
  destruct Hin as [<-|[<-|[<-|[<-|[]]]]]; vm_compute in Hbad; discriminate.
Qed.

(** ** The segmenting loop *)

Lemma seg_loop_app (st : seg_state) (a b : list string) :
  seg_loop st (a ++ b) = seg_loop (seg_loop st a) b.
Proof. apply fold_left_app. Qed.

Lemma seg_loop_cons (st : seg_state) (l : string) (ls : list string) :
  seg_loop st (l :: ls) = seg_loop (seg_step st l) ls.
Proof. reflexivity. Qed.

(** A header met with [new_flag = 0] opens a course. *)
Lemma seg_step_header (st : seg_state) (h : string) :
  is_course_name_line h = true -> new_flag st = 0 ->
  seg_step st h =
  {| cn_list := cn_list st ++ [h];
     cd_list := match cn_list st with
                | [] => cd_list st
                | _ :: _ => cd_list st ++ [temp_c_list st]
                end;
     new_flag := 1;
     temp_c_list := match cn_list st with
                    | [] => temp_c_list st
                    | _ :: _ => []
                    end |}.
Proof.
  intros Hh Hf. unfold seg_step. rewrite Hh, Hf. simpl.
  destruct (cn_list st); reflexivity.
Qed.

(** A course-name line met with [new_flag = 1] is one more line of the
    buffer. *)
Lemma seg_step_cross_reference (st : seg_state) (x : string) :
  is_course_name_line x = true -> new_flag st = 1 ->
  seg_step st x =
  {| cn_list := cn_list st; cd_list := cd_list st; new_flag := 1;
     temp_c_list := temp_c_list st ++ [x] |}.
Proof.
  intros Hx Hf. unfold seg_step. rewrite Hx, Hf. reflexivity.
Qed.

(** Lines none of which is a course-name line all go to the buffer. *)
Lemma seg_loop_no_name (ls : list string) :
  forall st,
    no_name_lines ls = true ->
    seg_loop st ls =
    {| cn_list := cn_list st; cd_list := cd_list st;
       new_flag := if existsb any_marker ls then 0 else new_flag st;
       temp_c_list := temp_c_list st ++ ls |}.
Proof.
  induction ls as [|l ls IH]; intros st H.
  - destruct st; simpl. now rewrite app_nil_r.
  - simpl in H. apply andb_prop in H as [Hl Hls].
    apply negb_true_iff in Hl.
    rewrite seg_loop_cons, (IH _ Hls). unfold seg_step. rewrite Hl.
    cbn [existsb]. destruct (any_marker l); simpl;
      rewrite <- app_assoc; try reflexivity.
    now destruct (existsb any_marker ls).
Qed.

(** After a header and before a marker, every line goes to the buffer. *)
Lemma seg_loop_no_marker (ls : list string) :
  forall st,
    no_marker_lines ls = true -> new_flag st = 1 ->
    seg_loop st ls =
    {| cn_list := cn_list st; cd_list := cd_list st; new_flag := 1;
       temp_c_list := temp_c_list st ++ ls |}.
Proof.
  induction ls as [|l ls IH]; intros st H Hf.
  - destruct st; simpl in *. now rewrite app_nil_r, Hf.
  - simpl in H. apply andb_prop in H as [Hl Hls].
    apply negb_true_iff in Hl.
    rewrite seg_loop_cons, IH; auto.
    + unfold seg_step. rewrite Hl, Hf.
      destruct (is_course_name_line l); simpl; now rewrite <- app_assoc.
    + unfold seg_step. rewrite Hl, Hf.
      destruct (is_course_name_line l); reflexivity.
Qed.

(** One well-formed course met with [new_flag = 0]. *)
Lemma seg_loop_block (b : block) (st : seg_state) :
  block_ok b = true -> new_flag st = 0 ->
  seg_loop st (block_lines b) =
  {| cn_list := cn_list st ++ [header b];
     cd_list := match cn_list st with
                | [] => cd_list st
                | _ :: _ => cd_list st ++ [temp_c_list st]
                end;
     new_flag := 0;
     temp_c_list := match cn_list st with
                    | [] => temp_c_list st
                    | _ :: _ => []
                    end ++ block_body b |}.
Proof.
  unfold block_ok, block_lines, block_body. intros H Hf.
  apply andb_prop in H as [H Hafter]. apply andb_prop in H as [H Hm].
  apply andb_prop in H as [Hh Hbefore].
  rewrite seg_loop_cons, seg_step_header by assumption.
  rewrite seg_loop_app.
  rewrite (seg_loop_no_marker (before_marker b)) by (assumption || reflexivity).
  cbn [cn_list cd_list new_flag temp_c_list].
  rewrite seg_loop_cons. unfold seg_step.
  rewrite (name_line_no_marker _ Hm), Hm.
  rewrite seg_loop_no_name by assumption.
  cbn [cn_list cd_list new_flag temp_c_list].
  rewrite <- !app_assoc. simpl.
  now destruct (existsb any_marker (after_marker b)).
Qed.

(** The segmenter's state after a whole document. *)
Lemma seg_loop_blocks (blocks : list block) :
  forall st,
    forallb block_ok blocks = true -> new_flag st = 0 ->
    cn_list (seg_loop st (List.concat (map block_lines blocks)))
    = cn_list st ++ map header blocks /\
    new_flag (seg_loop st (List.concat (map block_lines blocks))) = 0 /\
    cd_list (seg_loop st (List.concat (map block_lines blocks)))
      ++ [temp_c_list (seg_loop st (List.concat (map block_lines blocks)))]
    = match cn_list st, blocks with
      | _, [] => cd_list st ++ [temp_c_list st]
      | [], b :: bs =>
          cd_list st ++ (temp_c_list st ++ block_body b) :: map block_body bs
      | _ :: _, _ =>
          cd_list st ++ temp_c_list st :: map block_body blocks
      end.
Proof.
  induction blocks as [|b bs IH]; intros st Hok Hf.
  - simpl. rewrite app_nil_r. repeat split; auto. now destruct (cn_list st).
  - simpl in Hok. apply andb_prop in Hok as [Hb Hbs].
    cbn [map List.concat]. rewrite seg_loop_app, (seg_loop_block b st Hb Hf).
    match goal with |- context [seg_loop ?s (List.concat _)] =>
      destruct (IH s Hbs eq_refl) as (Hcn & Hfl & Hcd) end.
    rewrite Hcn, Hfl, Hcd. cbn [cn_list cd_list temp_c_list].
    repeat split.
    + now rewrite <- app_assoc.
    + destruct (cn_list st) as [|n ns]; destruct bs as [|b' bs'];
        cbn [app map]; rewrite <- ?app_assoc; reflexivity.
Qed.

Lemma seg_step_inv (seen : list string) (st : seg_state) (l : string) :
  seg_inv seen st -> seg_inv (seen ++ [l]) (seg_step st l).
Proof.
  unfold seg_inv, seg_step. intros H.
  destruct (is_course_name_line l).
  - destruct (new_flag st =? 1); cbn [cn_list cd_list temp_c_list].
    + destruct (cn_list st); [destruct H as [-> ->]; auto | exact H].
    + destruct (cn_list st) as [|n ns]; cbn [app].
      * destruct H as [-> _]. reflexivity.
      * cbn [List.length] in *. rewrite !length_app. cbn [List.length]. lia.
  - destruct (any_marker l); cbn [cn_list cd_list temp_c_list];
      (destruct (cn_list st); [destruct H as [-> ->]; auto | exact H]).
Qed.

Lemma seg_loop_inv (ls : list string) :
  forall seen st, seg_inv seen st -> seg_inv (seen ++ ls) (seg_loop st ls).
Proof.
  induction ls as [|l ls IH]; intros seen st H.
  - now rewrite app_nil_r.
  - rewrite seg_loop_cons.
    replace (seen ++ l :: ls) with ((seen ++ [l]) ++ ls)
      by now rewrite <- app_assoc.
    apply IH, seg_step_inv, H.
Qed.

(** Only course-name lines are recorded as headers. *)
Lemma seg_loop_names (ls : list string) :
  forall st,
    Forall (fun n => is_course_name_line n = true) (cn_list st) ->
    Forall (fun n => is_course_name_line n = true) (cn_list (seg_loop st ls)).
Proof.
  induction ls as [|l ls IH]; intros st H; [exact H|].
  rewrite seg_loop_cons. apply IH. unfold seg_step.
  destruct (is_course_name_line l) eqn:El.
  - destruct (new_flag st =? 1); cbn [cn_list]; auto.
    apply Forall_app. split; auto.
  - destruct (any_marker l); exact H.
Qed.

Lemma segment_names (text : list string) :
  Forall (fun n => is_course_name_line n = true) (fst (segment text)).
Proof. apply seg_loop_names. constructor. Qed.

(** ** Assembling the records *)

(** Every recorded header has a code, so the loop over the pairs logs
    nothing. *)
Lemma assemble_log (pairs : list (string * list string)) :
  forall acc,
    Forall (fun n => is_course_name_line n = true) (map fst pairs) ->
    snd (fold_left assemble_step pairs acc) = snd acc.
Proof.
  induction pairs as [|[n r] pairs IH]; intros [d lg] H; [reflexivity|].
  inversion H as [|? ? Hn Hrest]; subst.
  cbn [fold_left]. rewrite (IH _ Hrest).
  apply name_line_code in Hn as (code & Hc & Ht & _).
  unfold assemble_step. now rewrite Hc, Ht.
Qed.

Lemma combine_fst_names {B} (P : string -> Prop) (l : list string) :
  forall (l' : list B), Forall P l -> Forall P (map fst (combine l l')).
Proof.
  induction l as [|x l IH]; intros l' H; [constructor|].
  destruct l'; [constructor|].
  inversion H; subst. simpl. constructor; auto.
Qed.

(** The log of a run: four records after the loops, three more when the
    TSV files are written, all of level [INFO]. *)
Lemma extract_log (text : list string) (filename_prefix : string)
      (save_tsv : bool) :
  log (extract text filename_prefix save_tsv) =
  [(INFO, "There are " ++ str_of_nat (List.length text)
          ++ " lines of text in the PDF, saving to "
          ++ filename_prefix ++ "-raw_lines.txt")%string;
   (INFO, "Done writing raw lines");
   (INFO, "Found " ++ str_of_nat (List.length (fold_left count_code text []))
          ++ " matched course code")%string;
   (INFO, counts_message (List.length (fst (segment text)))
            (List.length (snd (segment text))))]
  ++ (if save_tsv
      then [(INFO, "Saving Course Records");
            (INFO, "Saving Course Descriptions");
            (INFO, "Done, Exiting")]
      else []).
Proof.
  unfold extract.
  pose proof (segment_names text) as Hn.
  destruct (segment text) as [cn cd]. cbn [fst snd] in *.
  pose proof (assemble_log (combine cn cd) ([], [])
                (combine_fst_names _ cn cd Hn)) as Hl.
  destruct (fold_left assemble_step (combine cn cd) ([], [])) as [d lg].
  cbn [snd] in Hl. subst lg.
  destruct save_tsv; cbn [log]; rewrite ?app_nil_r; reflexivity.
Qed.

Lemma seg_loop_cn_grows (ls : list string) :
  forall st, exists more, cn_list (seg_loop st ls) = cn_list st ++ more.
Proof.
  induction ls as [|l ls IH]; intros st.
  - exists []. simpl. now rewrite app_nil_r.
  - rewrite seg_loop_cons. destruct (IH (seg_step st l)) as [more ->].
    unfold seg_step.
    destruct (is_course_name_line l);
      [destruct (new_flag st =? 1) | destruct (any_marker l)];
      cbn [cn_list]; rewrite <- ?app_assoc; eauto.
Qed.

(** ** Course names *)

Lemma hanging_loop_spec (course_raw : list string) :
  forall buffer,
    hanging_loop course_raw buffer
    = buffer ++ filter truthy (before_paren course_raw).
Proof.
  induction course_raw as [|line rest IH]; intros buffer; simpl.
  - now rewrite app_nil_r.
  - destruct (contains "(" line); simpl; [now rewrite app_nil_r|].
    destruct (truthy line); rewrite IH; [|reflexivity].
    now rewrite <- app_assoc.
Qed.

(** ** Prerequisites *)

Lemma pre_loop_found (course_raw : list string) :
  pre_loop course_raw true = map strip_marker (before_description course_raw).
Proof.
  induction course_raw as [|line rest IH]; [reflexivity|].
  cbn [pre_loop before_description].
  destruct (any_marker line); [reflexivity|].
  cbn [map]. unfold strip_marker at 1.
  destruct (contains prereq_marker line); now rewrite IH.
Qed.

Lemma pre_loop_spec (course_raw : list string) :
  pre_loop course_raw false
  = map strip_marker (from_prerequisite (before_description course_raw)).
Proof.
  induction course_raw as [|line rest IH]; [reflexivity|].
  cbn [pre_loop before_description].
  destruct (any_marker line); [reflexivity|].
  cbn [from_prerequisite].
  destruct (contains prereq_marker line) eqn:E; [|exact IH].
  cbn [map]. unfold strip_marker at 1. now rewrite E, pre_loop_found.
Qed.

(** What [get_course_pre] returns, before any trimming. *)
Lemma get_course_pre_spec (course_raw : list string) :
  get_course_pre course_raw
  = join "" (map strip_marker
               (from_prerequisite (before_description course_raw))).
Proof. unfold get_course_pre. now rewrite pre_loop_spec. Qed.

(** The written prerequisite is the specified one, unless the text is
    white space only: not empty, and empty once trimmed. *)
Lemma prerequisite_agrees (course_raw : list string) :
  get_course_pre course_raw = "" \/
  truthy (strip (get_course_pre course_raw)) = true ->
  temp_prerequisite (get_course_pre course_raw)
  = prerequisite_as_specified course_raw.
Proof.
  unfold prerequisite_as_specified, prerequisite_text, temp_prerequisite.
  rewrite <- get_course_pre_spec.
  intros [->|H]; [reflexivity|].
  rewrite H. destruct (get_course_pre course_raw); [discriminate H|].
  reflexivity.
Qed.

Example scenario_E :
  temp_prerequisite (get_course_pre scenario_E_segment) = "N/A".
Proof. reflexivity. Qed.

(** ** Descriptions *)

Lemma desc_loop_found (course_raw : list string) :
  desc_loop course_raw true = course_raw.
Proof.
  induction course_raw as [|line rest IH]; [reflexivity|].
  cbn [desc_loop]. destruct (any_marker line); now rewrite IH.
Qed.

Lemma get_course_desc_spec (course_raw : list string) :
  get_course_desc course_raw = from_first_marker course_raw.
Proof.
  unfold get_course_desc.
  induction course_raw as [|line rest IH]; [reflexivity|].
  cbn [desc_loop from_first_marker].
  destruct (any_marker line); [now rewrite desc_loop_found | exact IH].
Qed.

Lemma split_not_nil (sep : ascii) (s : string) : split sep s <> [].
Proof.
  destruct s as [|c s]; simpl; [discriminate|].
  destruct (Ascii.eqb c sep); [discriminate|].
  destruct (split sep s); discriminate.
Qed.

Lemma join_split_colon (s : string) :
  join "" (split ":" s) = remove_colons s.
Proof.
  unfold join. induction s as [|c s IH]; [reflexivity|].
  cbn [split remove_colons]. pose proof (split_not_nil ":" s) as Hne.
  destruct (Ascii.eqb c ":").
  - rewrite <- IH. destruct (split ":" s); [contradiction|reflexivity].
  - rewrite <- IH. destruct (split ":" s) as [|h t]; [contradiction|].
    destruct t; reflexivity.
Qed.

Lemma join_tl_split_colon (s : string) :
  join "" (tl (split ":" s)) = remove_colons (after_first_colon s).
Proof.
  induction s as [|c s IH]; [reflexivity|].
  cbn [split after_first_colon]. pose proof (split_not_nil ":" s) as Hne.
  destruct (Ascii.eqb c ":").
  - cbn [tl]. apply join_split_colon.
  - rewrite <- IH. destruct (split ":" s); [contradiction|reflexivity].
Qed.

(** What [extract] writes as the description: the text after the first
    colon, with every later colon taken out as well. *)
Lemma clean_description_spec (v : list string) :
  clean_description v
  = strip (remove_colons
             (after_first_colon
                (join "" (filter (fun line => negb (is_page_number line)) v)))).
Proof. unfold clean_description. now rewrite join_tl_split_colon. Qed.

(** * The claims *)

(** C1 (Scenario A), as the code has it.  For the four lines of Scenario A
    the parse produces exactly one record, keyed ACCT1013, with course code
    ACCT1013, course name PRINCIPLES OF ACCOUNTING and unit 3.  In the
    dictionary [extract] returns, the prerequisite of that record is the raw
    text [ None] (a space, then None) and its description is the list of
    raw lines, here the one marker line.  When [save_tsv] is set, the one
    row handed to the records writer carries the prerequisite N/A, and the
    one row handed to the description writer carries the description
    [This course covers basics.]; when it is not set, no row is written. *)
Theorem C1_scenario_A (filename_prefix : string) :
  (forall save_tsv,
     returned (extract scenario_A filename_prefix save_tsv) =
     [("ACCT1013",
       {| payload.course_code := "ACCT1013";
          payload.course_name := "PRINCIPLES OF ACCOUNTING";
          payload.unit := Some "3";
          payload.prerequisite := " None";
          payload.description :=
            ["Course Description: This course covers basics."] |})]) /\
  option_map snd (records_tsv (extract scenario_A filename_prefix true)) =
  Some [[Some "course_code"; Some "course_name"; Some "prerequisite";
         Some "unit"];
        [Some "ACCT1013"; Some "PRINCIPLES OF ACCOUNTING"; Some "N/A";
         Some "3"]] /\
  option_map snd (description_tsv (extract scenario_A filename_prefix true)) =
  Some [[Some "course_code"; Some "course_description"];
        [Some "ACCT1013"; Some "This course covers basics."]] /\
  records_tsv (extract scenario_A filename_prefix false) = None /\
  description_tsv (extract scenario_A filename_prefix false) = None.
Proof.
  split; [intros []; vm_compute; reflexivity|].
  repeat split; vm_compute; reflexivity.
Qed.

(** C1 as stated fails: in the record the parse returns for Scenario A,
    keyed ACCT1013, the prerequisite is [ None], not N/A, and the
    description is the list holding the marker line, not the text
    [This course covers basics.]; in a run without [save_tsv] the two
    claimed values are produced nowhere, no row being written. *)
Lemma C1_counterexample :
  exists v,
    dict_get "ACCT1013" (returned (extract scenario_A "cd" false)) = Some v /\
    payload.prerequisite v = " None" /\
    payload.prerequisite v <> "N/A" /\
    payload.description v
    = ["Course Description: This course covers basics."] /\
    payload.description v <> ["This course covers basics."] /\
    records_tsv (extract scenario_A "cd" false) = None /\
    description_tsv (extract scenario_A "cd" false) = None.
Proof.
  eexists. split; [vm_compute; reflexivity|].
  cbn [payload.prerequisite payload.description].
  repeat split; try reflexivity; discriminate.
Qed.

(** C2 (Scenario C).  Take a line sequence with one genuine header [h]:
    lines before it none of which is a course-name line, then [h], then
    lines [mid] without a description marker, a cross-reference [x] that
    fully matches the course-name pattern, and the remaining lines, in
    which no course-name line comes after a description marker ([rest1]
    without markers, then [rest2] without course-name lines).  At [x] the
    step appends [x] to the buffer and leaves the recorded headers and the
    flushed segments alone; at the end exactly one course-name line, [h], is
    recorded, and there is one segment, which holds [x]. *)
Theorem C2_cross_reference_kept_in_segment
        (preamble mid rest1 rest2 : list string) (h x : string) :
  no_name_lines preamble = true ->
  is_course_name_line h = true ->
  no_marker_lines mid = true ->
  is_course_name_line x = true ->
  no_marker_lines rest1 = true ->
  no_name_lines rest2 = true ->
  seg_step (seg_loop seg_init (preamble ++ h :: mid)) x =
    {| cn_list := [h]; cd_list := []; new_flag := 1;
       temp_c_list := preamble ++ mid ++ [x] |} /\
  segment (preamble ++ h :: mid ++ x :: rest1 ++ rest2) =
    ([h], [preamble ++ mid ++ x :: rest1 ++ rest2]).
Proof.
  intros Hpre Hh Hmid Hx Hr1 Hr2.
  assert (Hstart : seg_loop seg_init (preamble ++ [h]) =
                   {| cn_list := [h]; cd_list := []; new_flag := 1;
                      temp_c_list := preamble |}).
  { rewrite seg_loop_app, (seg_loop_no_name preamble) by assumption.
    cbn [seg_loop fold_left]. rewrite seg_step_header; auto.
    cbn [new_flag seg_init]. now destruct (existsb any_marker preamble). }
  split.
  - replace (preamble ++ h :: mid) with ((preamble ++ [h]) ++ mid)
      by now rewrite <- app_assoc.
    rewrite seg_loop_app, Hstart, seg_loop_no_marker by auto.
    rewrite seg_step_cross_reference by auto.
    cbn [cn_list cd_list temp_c_list]. now rewrite <- app_assoc.
  - unfold segment.
    replace (preamble ++ h :: mid ++ x :: rest1 ++ rest2)
      with ((preamble ++ [h]) ++ (mid ++ x :: rest1) ++ rest2)
      by now rewrite <- !app_assoc.
    rewrite seg_loop_app, Hstart, seg_loop_app.
    rewrite (seg_loop_no_marker (mid ++ x :: rest1)); auto.
    + rewrite seg_loop_no_name by assumption.
      cbn [cn_list cd_list temp_c_list app].
      now rewrite <- !app_assoc.
    + unfold no_marker_lines in *. rewrite forallb_app, Hmid. cbn [forallb].
      rewrite Hr1, andb_true_r. cbn [andb].
      destruct (any_marker x) eqn:E; [|reflexivity].
      apply name_line_no_marker in E. congruence.
Qed.

Lemma C2_witness :
  segment (["CATALOGUE"] ++ "ACCT1013 PRINCIPLES OF ACCOUNTING"
             :: ["(3 units)"] ++ "ACCT1003 ACCOUNTING I"
             :: ["is required"] ++ ["Course Description: Basics."]) =
  (["ACCT1013 PRINCIPLES OF ACCOUNTING"],
   [["CATALOGUE"] ++ ["(3 units)"] ++ "ACCT1003 ACCOUNTING I"
      :: ["is required"] ++ ["Course Description: Basics."]]).
Proof.
  apply (C2_cross_reference_kept_in_segment
           ["CATALOGUE"] ["(3 units)"] ["is required"]
           ["Course Description: Basics."]
           "ACCT1013 PRINCIPLES OF ACCOUNTING" "ACCT1003 ACCOUNTING I");
    reflexivity.
Defined.

(** C3, as the code has it.  Take a document with N genuine headers, each
    followed by a description-marker line before the next one: lines none
    of which is a course-name line, then N well-formed courses.  The
    recorded course-name lines are the N headers; for N >= 1 there are
    exactly N segments (the first also holds the lines before the first
    header), and for N = 0 there is one segment, holding every line, next
    to zero course-name lines.  Every run logs one INFO record that states
    the two counts, and no record of another level. *)
Theorem C3_segments_of_document
        (preamble : list string) (blocks : list block)
        (filename_prefix : string) (save_tsv : bool) :
  no_name_lines preamble = true ->
  forallb block_ok blocks = true ->
  let text := document preamble blocks in
  let N := List.length blocks in
  fst (segment text) = map header blocks /\
  snd (segment text) =
    match blocks with
    | [] => [preamble]
    | b :: bs => (preamble ++ block_body b) :: map block_body bs
    end /\
  List.length (fst (segment text)) = N /\
  List.length (snd (segment text)) = Nat.max 1 N /\
  In (INFO, counts_message N (Nat.max 1 N))
     (log (extract text filename_prefix save_tsv)) /\
  Forall (fun r => fst r = INFO) (log (extract text filename_prefix save_tsv)).
Proof.
  intros Hpre Hok text N.
  assert (Hseg : segment text =
                 (map header blocks,
                  match blocks with
                  | [] => [preamble]
                  | b :: bs => (preamble ++ block_body b) :: map block_body bs
                  end)).
  { unfold segment, text, document.
    rewrite seg_loop_app, (seg_loop_no_name preamble) by assumption.
    match goal with |- context [seg_loop ?s (List.concat _)] =>
      destruct (seg_loop_blocks blocks s Hok) as (Hcn & _ & Hcd) end.
    { cbn [new_flag seg_init]. now destruct (existsb any_marker preamble). }
    rewrite Hcn, Hcd. cbn [cn_list cd_list temp_c_list seg_init app].
    now destruct blocks. }
  assert (Hn : List.length (fst (segment text)) = N).
  { rewrite Hseg. cbn [fst]. apply length_map. }
  assert (Hm : List.length (snd (segment text)) = Nat.max 1 N).
  { rewrite Hseg. cbn [snd]. subst N. destruct blocks as [|b bs];
      [reflexivity|]. cbn [List.length]. rewrite length_map. lia. }
  rewrite extract_log, Hn, Hm, Hseg. cbn [fst snd].
  repeat split; auto.
  - apply in_or_app. left. simpl. auto.
  - apply Forall_app. split.
    + repeat constructor.
    + destruct save_tsv; repeat constructor.
Qed.

Lemma C3_witness :
  List.length (fst (segment (document ["CATALOGUE"] [block_A; block_B]))) = 2
  /\ List.length (snd (segment (document ["CATALOGUE"] [block_A; block_B])))
     = 2.
Proof.
  pose proof (C3_segments_of_document ["CATALOGUE"] [block_A; block_B]
                "cd" false eq_refl eq_refl) as H.
  cbv zeta in H. destruct H as (_ & _ & Hn & Hm & _).
  split; [exact Hn | exact Hm].
Defined.

(** C3 as stated fails for N = 0: a document without any header (here the
    empty one) gives one segment, not zero, and although the two counts
    differ no record of level WARNING is logged. *)
Lemma C3_counterexample :
  no_name_lines [] = true /\ forallb block_ok [] = true /\
  List.length (fst (segment (document [] []))) = 0 /\
  List.length (snd (segment (document [] []))) = 1 /\
  List.length (snd (segment (document [] []))) <> List.length (@nil block) /\
  ~ In WARNING (map fst (log (extract (document [] []) "cd" false))).
Proof.
  repeat split; try reflexivity.
  - discriminate.
  - vm_compute. intros [H|[H|[H|[H|[]]]]]; discriminate.
Qed.

(** C4, as the code has it.  The segmenter's flag [new_flag] starts at 0,
    the value with which a course-name line opens a course (1 is the value
    with which it does not).  A line that fully matches the course-name
    pattern and is met while [new_flag] is 1, that is after a header and
    before a description marker, is appended to the buffer and opens no
    course.  An input whose first line fully matches the course-name
    pattern has that line recorded as its first course header. *)
Theorem C4_flag_and_first_header
        (st : seg_state) (x h : string) (rest : list string) :
  is_course_name_line x = true ->
  new_flag st = 1 ->
  is_course_name_line h = true ->
  new_flag seg_init = 0 /\
  seg_step st x =
    {| cn_list := cn_list st; cd_list := cd_list st; new_flag := 1;
       temp_c_list := temp_c_list st ++ [x] |} /\
  seg_step seg_init h =
    {| cn_list := [h]; cd_list := []; new_flag := 1; temp_c_list := [] |} /\
  exists more, fst (segment (h :: rest)) = h :: more.
Proof.
  intros Hx Hf Hh. split; [reflexivity|].
  split; [now apply seg_step_cross_reference|].
  assert (E : seg_step seg_init h =
              {| cn_list := [h]; cd_list := []; new_flag := 1;
                 temp_c_list := [] |})
    by now rewrite seg_step_header.
  split; [exact E|].
  unfold segment. rewrite seg_loop_cons, E. cbn [fst].
  destruct (seg_loop_cn_grows rest
              {| cn_list := [h]; cd_list := []; new_flag := 1;
                 temp_c_list := [] |}) as [more ->].
  now exists more.
Qed.

Lemma C4_witness :
  exists more,
    fst (segment ("ACCT1013 PRINCIPLES OF ACCOUNTING" :: ["(3 units)"]))
    = "ACCT1013 PRINCIPLES OF ACCOUNTING" :: more.
Proof.
  apply (C4_flag_and_first_header
           {| cn_list := ["ACCT1013 PRINCIPLES OF ACCOUNTING"]; cd_list := [];
              new_flag := 1; temp_c_list := [] |}
           "ACCT1003 ACCOUNTING I" "ACCT1013 PRINCIPLES OF ACCOUNTING"
           ["(3 units)"] eq_refl eq_refl eq_refl).
Defined.

(** C4 as stated fails: the first line of Scenario A fully matches the
    course-name pattern, nothing precedes it, and it is recorded as a
    course header, the flag being 0 at the start. *)
Lemma C4_counterexample :
  is_course_name_line "ACCT1013 PRINCIPLES OF ACCOUNTING" = true /\
  new_flag seg_init = 0 /\
  fst (segment scenario_A) = ["ACCT1013 PRINCIPLES OF ACCOUNTING"].
Proof. repeat split; reflexivity. Qed.

(** C5.  When a line fully matches the anchored course-name pattern, the
    search of [get_course_code] finds a code, and it is the first group of
    the anchored match. *)
Theorem C5_code_agrees_with_header (line : string) (pos : nat) (g : groups) :
  py_match COURSE_NAME_PATTERN line = Some (pos, g) ->
  exists code, get_course_code line = Some code /\ group 1 g = Some code.
Proof.
  intros H.
  apply name_line_shape in H as (L & D & rest & -> & HL & HLn & HD & HDn & _ & Hg).
  exists (L ++ D)%string. split; [|exact Hg].
  now apply search_code_at_start.
Qed.

Lemma C5_witness :
  exists code,
    get_course_code "ACCT1013 PRINCIPLES OF ACCOUNTING" = Some code /\
    group 1 [(2, "PRINCIPLES OF ACCOUNTING"); (1, "ACCT1013")] = Some code.
Proof.
  apply (C5_code_agrees_with_header "ACCT1013 PRINCIPLES OF ACCOUNTING" 33
           [(2, "PRINCIPLES OF ACCOUNTING"); (1, "ACCT1013")]).
  reflexivity.
Defined.

(** C6.  For a segment, that is a course-name line with its raw lines, the
    course name is: the name line with the course code found in it removed
    (every occurrence of that text) and trimmed, joined by single spaces
    with the non-empty raw lines that come before the first raw line
    holding an opening parenthesis, and trimmed.  For the name line
    [BUSA2003 ADVANCED] and raw lines starting with [STRATEGIC MANAGEMENT],
    [(3 units)] this is [ADVANCED STRATEGIC MANAGEMENT], which is also the
    course name of the one record parsed from these three lines. *)
Theorem C6_course_name (name_line : string) (course_raw rest : list string) :
  is_course_name_line name_line = true ->
  (exists code,
     get_course_code name_line = Some code /\
     get_course_name name_line course_raw =
     strip (join " " (strip (replace code "" name_line)
                        :: filter truthy (before_paren course_raw)))) /\
  get_course_name "BUSA2003 ADVANCED"
    ("STRATEGIC MANAGEMENT" :: "(3 units)" :: rest)
  = "ADVANCED STRATEGIC MANAGEMENT" /\
  map (fun kv => (fst kv, payload.course_name (snd kv)))
      (returned (extract scenario_B "cd" false))
  = [("BUSA2003", "ADVANCED STRATEGIC MANAGEMENT")].
Proof.
  intros Hn. split; [|split; reflexivity].
  apply name_line_code in Hn as (code & Hc & Ht & _).
  exists code. split; [exact Hc|].
  unfold get_course_name, hanging_course_name.
  now rewrite Hc, Ht, hanging_loop_spec.
Qed.

Lemma C6_witness :
  exists code,
    get_course_code "BUSA2003 ADVANCED" = Some code /\
    get_course_name "BUSA2003 ADVANCED" ["STRATEGIC MANAGEMENT"; "(3 units)"] =
    strip (join " " (strip (replace code "" "BUSA2003 ADVANCED")
                       :: filter truthy
                            (before_paren ["STRATEGIC MANAGEMENT"; "(3 units)"]))).
Proof.
  apply (C6_course_name "BUSA2003 ADVANCED"
           ["STRATEGIC MANAGEMENT"; "(3 units)"] [] eq_refl).
Defined.

(** C7 at the failing input.  For a segment whose prerequisite line holds
    only the marker and a space, the text of the claim (the lines from the
    marker line up to the description marker, marker taken out, joined and
    trimmed) is empty, so the claim gives N/A; [extract] tests for emptiness
    before it trims, and writes the empty string. *)
Theorem C7_blank_prerequisite_written_empty :
  get_course_pre blank_prerequisite_segment = " " /\
  prerequisite_text blank_prerequisite_segment = "" /\
  prerequisite_as_specified blank_prerequisite_segment = "N/A" /\
  temp_prerequisite (get_course_pre blank_prerequisite_segment) = "" /\
  option_map snd
    (records_tsv
       (extract ("ACCT1013 PRINCIPLES OF ACCOUNTING"
                   :: blank_prerequisite_segment) "cd" true)) =
  Some [[Some "course_code"; Some "course_name"; Some "prerequisite";
         Some "unit"];
        [Some "ACCT1013"; Some "PRINCIPLES OF ACCOUNTING"; Some "";
         Some "3"]].
Proof. repeat split; vm_compute; reflexivity. Qed.

(** C8 at the failing input.  For a description with a second colon the
    claim keeps that colon; [extract] splits the joined text at every colon
    and joins the pieces after the first with nothing between them, so the
    written description has lost it. *)
Theorem C8_later_colons_removed :
  get_course_desc colon_segment
  = ["Course Description: Topics: ledgers and audits."] /\
  description_as_specified colon_segment = "Topics: ledgers and audits." /\
  clean_description (get_course_desc colon_segment)
  = "Topics ledgers and audits." /\
  option_map snd
    (description_tsv
       (extract ("ACCT1013 PRINCIPLES OF ACCOUNTING" :: colon_segment)
          "cd" true)) =
  Some [[Some "course_code"; Some "course_description"];
        [Some "ACCT1013"; Some "Topics ledgers and audits."]].
Proof. repeat split; vm_compute; reflexivity. Qed.

(** C9, as the code has it.  For the empty input [extract] returns a
    dictionary with zero records (the model is a total function: nothing is
    raised), and logs only INFO records.  Nothing in the result marks the
    input as empty: any input without a course-name line gives the same
    empty dictionary and the same rows, the header rows alone. *)
Theorem C9_empty_input
        (text : list string) (filename_prefix : string) (save_tsv : bool) :
  no_name_lines text = true ->
  returned (extract [] filename_prefix save_tsv) = [] /\
  Forall (fun r => fst r = INFO) (log (extract [] filename_prefix save_tsv)) /\
  returned (extract text filename_prefix save_tsv) = [] /\
  records_tsv (extract text filename_prefix save_tsv)
  = records_tsv (extract [] filename_prefix save_tsv) /\
  description_tsv (extract text filename_prefix save_tsv)
  = description_tsv (extract [] filename_prefix save_tsv).
Proof.
  intros Hno.
  assert (Hseg : fst (segment text) = []).
  { unfold segment. now rewrite seg_loop_no_name. }
  split; [now destruct save_tsv|].
  split.
  { rewrite extract_log. apply Forall_app. split;
      [|destruct save_tsv]; repeat constructor. }
  unfold extract. destruct (segment text) as [cn cd].
  cbn [fst] in Hseg. subst cn. cbn [combine fold_left].
  destruct save_tsv; repeat split; reflexivity.
Qed.

Lemma C9_witness :
  returned (extract ["COURSE CATALOGUE"; "Description: none yet"] "cd" true)
  = [].
Proof.
  apply (C9_empty_input ["COURSE CATALOGUE"; "Description: none yet"]
           "cd" true eq_refl).
Defined.

(** C9 as stated fails: the result for the empty input carries no status of
    its own.  The dictionary returned and the rows written are those of a
    run on a line without any course, and the log holds the usual four INFO
    records of a run. *)
Lemma C9_counterexample :
  returned (extract [] "cd" true)
  = returned (extract ["COURSE CATALOGUE"] "cd" true) /\
  records_tsv (extract [] "cd" true)
  = records_tsv (extract ["COURSE CATALOGUE"] "cd" true) /\
  description_tsv (extract [] "cd" true)
  = description_tsv (extract ["COURSE CATALOGUE"] "cd" true) /\
  log (extract [] "cd" false) =
  [(INFO, "There are 0 lines of text in the PDF, saving to cd-raw_lines.txt");
   (INFO, "Done writing raw lines");
   (INFO, "Found 0 matched course code");
   (INFO, "Found 0 Course Name, 1 Course Description (Two number equal means good)")]
  /\
  log (extract ["COURSE CATALOGUE"] "cd" false) =
  [(INFO, "There are 1 lines of text in the PDF, saving to cd-raw_lines.txt");
   (INFO, "Done writing raw lines");
   (INFO, "Found 0 matched course code");
   (INFO, "Found 0 Course Name, 1 Course Description (Two number equal means good)")].
Proof. repeat split; vm_compute; reflexivity. Qed.

(** C10.  For every line sequence: when at least one course-name line is
    recorded, the segments are as many as the recorded course-name lines,
    whether or not a description marker occurs; when none is recorded
    there is exactly one segment, which holds all the lines; so the two
    counts differ exactly when no course-name line is recorded. *)
Theorem C10_segment_count (text : list string) :
  (fst (segment text) <> [] ->
   List.length (snd (segment text)) = List.length (fst (segment text))) /\
  (fst (segment text) = [] -> snd (segment text) = [text]) /\
  (List.length (snd (segment text)) <> List.length (fst (segment text))
   <-> fst (segment text) = []).
Proof.
  pose proof (seg_loop_inv text [] seg_init (conj eq_refl eq_refl)) as H.
  unfold segment. cbn [fst snd app] in *. unfold seg_inv in H.
  destruct (cn_list (seg_loop seg_init text)) as [|n ns] eqn:E.
  - destruct H as [-> ->]. cbn [app List.length].
    split; [intros Hc; now contradiction Hc|].
    split; [reflexivity|]. split; [reflexivity | discriminate].
  - rewrite length_app. cbn [List.length] in *.
    split; [intros _; lia|].
    split; [discriminate|]. split; [lia | discriminate].
Qed.

(** * Further properties of [extract.py] *)

(** ** Trimming *)

Lemma rstrip_idempotent (s : string) : rstrip (rstrip s) = rstrip s.
Proof.
  induction s as [|c s IH]; [reflexivity|].
  cbn [rstrip]. destruct (rstrip s) as [|d r] eqn:E.
  - destruct (is_space c) eqn:Ec; [reflexivity|].
    cbn [rstrip]. now rewrite Ec.
  - change (rstrip (String c (String d r))) with
      (match rstrip (String d r) with
       | EmptyString => if is_space c then EmptyString else String c EmptyString
       | String x y => String c (String x y)
       end).
    now rewrite IH.
Qed.

Lemma rstrip_keeps_head (c : ascii) (t : string) :
  is_space c = false -> exists t', rstrip (String c t) = String c t'.
Proof.
  intros Hc. cbn [rstrip]. destruct (rstrip t); rewrite ?Hc; eauto.
Qed.

Lemma lstrip_head (s : string) :
  lstrip s = EmptyString \/
  exists c t, lstrip s = String c t /\ is_space c = false.
Proof.
  induction s as [|c s IH]; [now left|].
  cbn [lstrip]. destruct (is_space c) eqn:Ec; [exact IH|].
  right. eauto.
Qed.

Lemma strip_idempotent (s : string) : strip (strip s) = strip s.
Proof.
  unfold strip. destruct (lstrip_head s) as [->|(c & t & -> & Hc)];
    [reflexivity|].
  destruct (rstrip_keeps_head c t Hc) as [t' E].
  rewrite E. cbn [lstrip]. rewrite Hc, <- E. apply rstrip_idempotent.
Qed.

Lemma all_chars_lstrip p (s : string) :
  all_chars p s = true -> all_chars p (lstrip s) = true.
Proof.
  induction s as [|c s IH]; [reflexivity|].
  intros H. cbn [lstrip]. destruct (is_space c); [|exact H].
  simpl in H. apply andb_prop in H as [_ H]. auto.
Qed.

Lemma all_chars_rstrip p (s : string) :
  all_chars p s = true -> all_chars p (rstrip s) = true.
Proof.
  induction s as [|c s IH]; [reflexivity|].
  intros H. simpl in H. apply andb_prop in H as [Hc Hs].
  specialize (IH Hs). cbn [rstrip].
  destruct (rstrip s); [destruct (is_space c)|]; simpl in *;
    rewrite ?Hc; auto.
Qed.

Lemma all_chars_strip p (s : string) :
  all_chars p s = true -> all_chars p (strip s) = true.
Proof. intros H. apply all_chars_rstrip, all_chars_lstrip, H. Qed.

(** ** Substrings *)

Lemma prefix_app_l (a b s : string) :
  prefix (a ++ b) s = true -> prefix a s = true.
Proof.
  revert s. induction a as [|x a IH]; intros s H.
  - destruct s; reflexivity.
  - destruct s as [|y s]; [discriminate H|].
    cbn [append prefix] in *. destruct (ascii_dec x y); [auto|discriminate].
Qed.

Lemma contains_app_l (a b s : string) :
  contains (a ++ b) s = true -> contains a s = true.
Proof.
  induction s as [|y s IH]; cbn [contains]; intros H.
  - rewrite orb_false_r in *. eapply prefix_app_l; eauto.
  - apply orb_prop in H as [H|H].
    + erewrite prefix_app_l; eauto.
    + rewrite (IH H). apply orb_true_r.
Qed.

Lemma prefix_self_app (m t : string) : prefix m (m ++ t) = true.
Proof.
  induction m as [|x m IH]; [now destruct t|].
  cbn [append prefix]. destruct (ascii_dec x x); [exact IH|contradiction].
Qed.

Lemma contains_middle (a m t : string) : contains m (a ++ m ++ t) = true.
Proof.
  induction a as [|x a IH]; cbn [append].
  - destruct (m ++ t)%string eqn:E; cbn [contains]; rewrite <- E;
      now rewrite prefix_self_app.
  - cbn [contains]. rewrite IH. apply orb_true_r.
Qed.

Lemma no_char_no_contains (c : ascii) (s : string) :
  all_chars (fun x => negb (Ascii.eqb x c)) s = true ->
  contains (String c EmptyString) s = false.
Proof.
  induction s as [|y s IH]; [reflexivity|].
  intros H. simpl in H. apply andb_prop in H as [Hy Hs].
  cbn [contains prefix]. rewrite (IH Hs), orb_false_r.
  destruct (ascii_dec c y) as [->|]; [|reflexivity].
  now rewrite Ascii.eqb_refl in Hy.
Qed.

(** ** The written prerequisite *)

(** X16.  What [extract] writes in the prerequisite column never holds the text
    None and has no white space at either end; the second test of line
    197, for None Course, changes nothing, the first one covering it. *)
Theorem temp_prerequisite_normalised (prerequisite : string) :
  contains "None" (temp_prerequisite prerequisite) = false /\
  trimmed (temp_prerequisite prerequisite) /\
  temp_prerequisite prerequisite =
    (if truthy prerequisite
     then if contains "None" (strip prerequisite) then "N/A"
          else strip prerequisite
     else "N/A").
Proof.
  unfold temp_prerequisite, trimmed.
  destruct (truthy prerequisite); [|repeat split; reflexivity].
  destruct (contains "None" (strip prerequisite)) eqn:E1.
  - repeat split; reflexivity.
  - destruct (contains "None Course" (strip prerequisite)) eqn:E2.
    + apply (contains_app_l "None" " Course") in E2. congruence.
    + cbn [orb]. repeat split; auto using strip_idempotent.
Qed.

(** X15.  A segment without the prerequisite marker has the empty prerequisite,
    written as N/A. *)
Theorem prerequisite_without_marker (course_raw : list string) :
  forallb (fun line => negb (contains prereq_marker line)) course_raw = true ->
  get_course_pre course_raw = "" /\
  temp_prerequisite (get_course_pre course_raw) = "N/A".
Proof.
  intros H.
  assert (E : pre_loop course_raw false = []).
  { induction course_raw as [|line rest IH]; [reflexivity|].
    cbn [forallb] in H. apply andb_prop in H as [Hl Hr].
    apply negb_true_iff in Hl. cbn [pre_loop]. rewrite Hl.
    destruct (any_marker line); [reflexivity | exact (IH Hr)]. }
  unfold get_course_pre. rewrite E. split; reflexivity.
Qed.

Lemma prerequisite_without_marker_witness :
  get_course_pre ["(3 units)"; "Course Description: Basics."] = "" /\
  temp_prerequisite
    (get_course_pre ["(3 units)"; "Course Description: Basics."]) = "N/A".
Proof.
  apply (prerequisite_without_marker
           ["(3 units)"; "Course Description: Basics."]).
  reflexivity.
Defined.

(** ** Prerequisite and description of one segment *)

Lemma before_description_app (a b : list string) (m : string) :
  no_marker_lines a = true -> any_marker m = true ->
  before_description (a ++ m :: b) = a.
Proof.
  intros Ha Hm. induction a as [|l a IH]; cbn [app before_description].
  - now rewrite Hm.
  - cbn [no_marker_lines forallb] in Ha. apply andb_prop in Ha as [Hl Ha].
    apply negb_true_iff in Hl. rewrite Hl. f_equal. exact (IH Ha).
Qed.

Lemma before_description_all (a : list string) :
  no_marker_lines a = true -> before_description a = a.
Proof.
  intros Ha. induction a as [|l a IH]; [reflexivity|].
  cbn [no_marker_lines forallb] in Ha. apply andb_prop in Ha as [Hl Ha].
  apply negb_true_iff in Hl. cbn [before_description]. rewrite Hl.
  f_equal. exact (IH Ha).
Qed.

(** X14.  The first description-marker line cuts a segment in two: the
    prerequisite is read from the lines before it alone, and the
    description is that line and all the lines after it.  Whatever follows
    the marker line, a prerequisite marker included, does not reach the
    prerequisite. *)
Theorem marker_line_splits_segment (a b : list string) (m : string) :
  no_marker_lines a = true -> any_marker m = true ->
  get_course_pre (a ++ m :: b) = get_course_pre a /\
  get_course_desc (a ++ m :: b) = m :: b.
Proof.
  intros Ha Hm. split.
  - rewrite !get_course_pre_spec, before_description_app by assumption.
    now rewrite before_description_all.
  - rewrite get_course_desc_spec.
    induction a as [|l a IH]; cbn [app from_first_marker].
    + now rewrite Hm.
    + cbn [no_marker_lines forallb] in Ha. apply andb_prop in Ha as [Hl Ha].
      apply negb_true_iff in Hl. rewrite Hl. exact (IH Ha).
Qed.

Lemma marker_line_splits_segment_witness :
  get_course_pre (["(3 units)"; "Pre-requisite(s): ACCT1003"]
                    ++ "Course Description: Basics."
                    :: ["Pre-requisite(s): late"])
  = get_course_pre ["(3 units)"; "Pre-requisite(s): ACCT1003"] /\
  get_course_desc (["(3 units)"; "Pre-requisite(s): ACCT1003"]
                     ++ "Course Description: Basics."
                     :: ["Pre-requisite(s): late"])
  = "Course Description: Basics." :: ["Pre-requisite(s): late"].
Proof.
  apply (marker_line_splits_segment
           ["(3 units)"; "Pre-requisite(s): ACCT1003"]
           ["Pre-requisite(s): late"] "Course Description: Basics.");
    reflexivity.
Defined.

(** ** The written description *)

Lemma remove_colons_clean (s : string) :
  all_chars not_colon (remove_colons s) = true.
Proof.
  induction s as [|c s IH]; [reflexivity|].
  cbn [remove_colons]. destruct (Ascii.eqb c ":") eqn:E; [exact IH|].
  cbn [all_chars]. unfold not_colon at 1. now rewrite E, IH.
Qed.

Lemma after_first_colon_without (s : string) :
  all_chars not_colon s = true -> after_first_colon s = "".
Proof.
  induction s as [|c s IH]; [reflexivity|].
  intros H. cbn [all_chars] in H. apply andb_prop in H as [Hc Hs].
  unfold not_colon in Hc. apply negb_true_iff in Hc.
  cbn [after_first_colon]. rewrite Hc. exact (IH Hs).
Qed.

Lemma contains_colon_false (s : string) :
  contains ":" s = false -> all_chars not_colon s = true.
Proof.
  induction s as [|c s IH]; [reflexivity|].
  cbn [contains prefix]. intros H. apply orb_false_elim in H as [Hp Hs].
  cbn [all_chars]. rewrite (IH Hs), andb_true_r. unfold not_colon.
  destruct (ascii_dec ":" c) as [<-|Hne].
  - destruct s; discriminate Hp.
  - apply negb_true_iff, Ascii.eqb_neq. congruence.
Qed.

Lemma all_chars_join p (ls : list string) :
  forallb (all_chars p) ls = true -> all_chars p (join "" ls) = true.
Proof.
  unfold join. induction ls as [|l ls IH]; [reflexivity|].
  cbn [forallb]. intros H. apply andb_prop in H as [Hl Hls].
  cbn [String.concat]. destruct ls as [|l' ls']; [exact Hl|].
  cbn [append]. rewrite all_chars_app, Hl. exact (IH Hls).
Qed.

(** X17.  The description [extract] writes holds no colon at all and has no white
    space at either end. *)
Theorem clean_description_no_colon (v : list string) :
  contains ":" (clean_description v) = false /\
  trimmed (clean_description v).
Proof.
  split.
  - rewrite clean_description_spec. apply no_char_no_contains.
    apply (all_chars_strip not_colon), remove_colons_clean.
  - apply strip_idempotent.
Qed.

(** X18.  When no line of the description holds a colon (the markers Course
    Description and Course  Description have none), the written
    description is empty: the whole text counts as the label. *)
Theorem clean_description_without_colon (v : list string) :
  forallb (fun line => negb (contains ":" line)) v = true ->
  clean_description v = "".
Proof.
  intros H. rewrite clean_description_spec.
  rewrite after_first_colon_without; [reflexivity|].
  apply all_chars_join.
  induction v as [|l v IH]; [reflexivity|].
  cbn [forallb] in H. apply andb_prop in H as [Hl Hv].
  apply negb_true_iff in Hl. cbn [filter].
  destruct (negb (is_page_number l)); [|exact (IH Hv)].
  cbn [forallb]. now rewrite (contains_colon_false _ Hl), (IH Hv).
Qed.

Lemma clean_description_without_colon_witness :
  clean_description ["Course Description"; "This course covers basics."]
  = "".
Proof.
  apply (clean_description_without_colon
           ["Course Description"; "This course covers basics."]).
  reflexivity.
Defined.

(** ** Course names *)

(** X11.  A course name has no white space at either end. *)
Theorem get_course_name_trimmed (course_name : string)
        (course_raw : list string) :
  trimmed (get_course_name course_name course_raw).
Proof.
  unfold trimmed, get_course_name.
  destruct (get_course_code course_name) as [cc|];
    [destruct (truthy cc)|]; apply strip_idempotent.
Qed.

(** ** Units *)

Lemma unit_line_shape (s : string) (m : nat * groups) :
  py_match UNIT_PATTERN s = Some m ->
  exists d t, s = String "(" (String d t) /\ is_digit d = true.
Proof.
  unfold py_match, UNIT_PATTERN, Chr. cbn [rmatch]. intros H.
  destruct s as [|c s]; [discriminate|].
  destruct (Ascii.eqb "(" c) eqn:Ec; [|discriminate].
  apply Ascii.eqb_eq in Ec. subst c.
  apply repeat_greedy_inv in H as (a & t & -> & Ha & Hlo & Hhi & _).
  specialize (Hhi 1 eq_refl).
  destruct a as [|d [|d' a]]; cbn [String.length] in *; try lia.
  cbn [all_chars] in Ha. rewrite andb_true_r in Ha.
  exists d, t. split; [reflexivity | exact Ha].
Qed.

(** X12.  A unit, when one is found, is a single digit: the character after the
    opening parenthesis of a line of the segment, trimmed. *)
Theorem get_course_unit_digit (course_raw : list string) (u : string) :
  get_course_unit course_raw = Some u ->
  exists d line,
    u = String d EmptyString /\ is_digit d = true /\
    In line course_raw /\ prefix (String "(" u) (strip line) = true.
Proof.
  induction course_raw as [|line rest IH]; [discriminate|].
  cbn [get_course_unit]. intros H.
  destruct (py_match UNIT_PATTERN (strip line)) as [m|] eqn:E; cbn [matched] in H.
  - apply unit_line_shape in E as (d & t & E & Hd).
    rewrite E in H.
    assert (Hu : u = String d EmptyString)
      by (inversion H; now destruct t).
    subst u. clear H.
    exists d, line. split; [reflexivity|]. split; [exact Hd|].
    split; [apply in_eq|]. rewrite E.
    apply (prefix_self_app (String "(" (String d EmptyString)) t).
  - destruct (IH H) as (d & l & -> & Hd & Hin & Hp).
    exists d, l. repeat split; auto using in_cons.
Qed.

Lemma get_course_unit_digit_witness :
  exists d line,
    "3" = String d EmptyString /\ is_digit d = true /\
    In line ["STRATEGIC MANAGEMENT"; "  (3 units)"] /\
    prefix (String "(" "3") (strip line) = true.
Proof.
  apply (get_course_unit_digit ["STRATEGIC MANAGEMENT"; "  (3 units)"] "3").
  reflexivity.
Defined.

(** ** Course codes *)

Lemma match_code_shape (s : string) (pos e : nat) (g : groups) :
  rmatch COURSE_CODE_PATTERN s pos [] done = Some (e, g) ->
  exists L D t,
    s = (L ++ D ++ t)%string /\
    all_chars is_upper L = true /\ 2 <= String.length L <= 4 /\
    all_chars is_digit D = true /\ String.length D = 4 /\
    g = [(1, (L ++ D)%string)].
Proof.
  unfold COURSE_CODE_PATTERN, code_body. cbn [rmatch]. intros H.
  apply repeat_greedy_inv in H as (L & t & -> & HL & HL2 & HL4 & H).
  apply repeat_greedy_inv in H as (D & t' & -> & HD & HD4 & HD4' & H).
  specialize (HL4 4 eq_refl). specialize (HD4' 4 eq_refl).
  unfold done in H. inversion H; subst e g. clear H.
  exists L, D, t'. repeat split; auto; try lia.
  replace (pos + String.length L + String.length D - pos)
    with (String.length (L ++ D)) by (rewrite length_append; lia).
  now rewrite <- append_assoc, substring_0_append.
Qed.

Lemma search_code_shape (s : string) :
  forall pos e g,
    search_from COURSE_CODE_PATTERN s pos = Some (e, g) ->
    exists before code after,
      s = (before ++ code ++ after)%string /\ code_shape code /\
      g = [(1, code)].
Proof.
  assert (Hm : forall s pos e g,
             rmatch COURSE_CODE_PATTERN s pos [] done = Some (e, g) ->
             exists before code after,
               s = (before ++ code ++ after)%string /\ code_shape code /\
               g = [(1, code)]).
  { intros s0 pos e g H.
    apply match_code_shape in H as (L & D & t & -> & HL & HLn & HD & HDn & ->).
    exists EmptyString, (L ++ D)%string, t. cbn [append].
    rewrite append_assoc. repeat split; auto.
    exists L, D. repeat split; auto; lia. }
  induction s as [|c s IH]; intros pos e g H; cbn [search_from] in H.
  - destruct (rmatch COURSE_CODE_PATTERN "" pos [] done) as [[e' g']|] eqn:E;
      [|discriminate].
    inversion H; subst. eauto.
  - destruct (rmatch COURSE_CODE_PATTERN (String c s) pos [] done)
      as [[e' g']|] eqn:E.
    + inversion H; subst. eauto.
    + apply IH in H as (before & code & after & -> & Hc & ->).
      exists (String c before), code, after. repeat split; auto.
Qed.

Lemma get_course_code_inv (line code : string) :
  get_course_code line = Some code ->
  exists before after,
    line = (before ++ code ++ after)%string /\ code_shape code.
Proof.
  unfold get_course_code, py_search. intros H.
  destruct (search_from COURSE_CODE_PATTERN line 0) as [[e g]|] eqn:E;
    [|discriminate].
  apply search_code_shape in E as (before & c & after & -> & Hc & ->).
  cbn [group Nat.eqb] in H. inversion H; subst c. eauto.
Qed.

(** X9.  Whatever the line, a code [get_course_code] returns is two to four
    capitals followed by four digits, and it occurs in the line. *)
Theorem get_course_code_shape (line code : string) :
  get_course_code line = Some code ->
  code_shape code /\ contains code line = true.
Proof.
  intros H. apply get_course_code_inv in H as (before & after & -> & Hc).
  split; [exact Hc | apply contains_middle].
Qed.

Lemma get_course_code_shape_witness :
  code_shape "BCDE1234" /\ contains "BCDE1234" "see ABCDE12345" = true.
Proof.
  apply (get_course_code_shape "see ABCDE12345" "BCDE1234").
  reflexivity.
Defined.

Lemma code_shape_truthy (code : string) : code_shape code -> truthy code = true.
Proof.
  intros (L & D & -> & _ & HL & _). destruct L; simpl in *; [lia|reflexivity].
Qed.

Lemma get_course_code_truthy (n code : string) :
  get_course_code n = Some code -> truthy code = true.
Proof.
  intros H. apply code_shape_truthy.
  now apply get_course_code_inv in H as (_ & _ & _ & H).
Qed.

(** ** Dictionaries *)

Lemma dict_get_set_same {V} (k : string) (v : V) (d : dict V) :
  dict_get k (dict_set k v d) = Some v.
Proof.
  induction d as [|[k' v'] d IH]; cbn [dict_set dict_get].
  - now rewrite String.eqb_refl.
  - destruct (String.eqb k' k) eqn:E; cbn [dict_get]; now rewrite E.
Qed.

Lemma dict_get_set_other {V} (k k0 : string) (v : V) (d : dict V) :
  k0 <> k -> dict_get k0 (dict_set k v d) = dict_get k0 d.
Proof.
  intros Hne. induction d as [|[k' v'] d IH]; cbn [dict_set dict_get].
  - apply String.eqb_neq in Hne. now rewrite String.eqb_sym, Hne.
  - destruct (String.eqb k' k) eqn:E; cbn [dict_get].
    + apply String.eqb_eq in E. subst k'.
      apply String.eqb_neq in Hne. now rewrite String.eqb_sym, Hne.
    + now rewrite IH.
Qed.

Lemma dict_set_in {V} (k k0 : string) (v v0 : V) (d : dict V) :
  In (k0, v0) (dict_set k v d) -> (k0 = k /\ v0 = v) \/ In (k0, v0) d.
Proof.
  induction d as [|[k' v'] d IH]; cbn [dict_set]; intros H.
  - destruct H as [H|[]]. inversion H. auto.
  - destruct (String.eqb k' k) eqn:E.
    + apply String.eqb_eq in E. subst k'.
      destruct H as [H|H]; [inversion H; auto | right; now right].
    + destruct H as [H|H]; [right; now left|].
      destruct (IH H) as [?|?]; [auto | right; now right].
Qed.

Lemma dict_set_keys {V} (k k0 : string) (v : V) (d : dict V) :
  In k0 (map fst (dict_set k v d)) <-> k0 = k \/ In k0 (map fst d).
Proof.
  induction d as [|[k' v'] d IH]; cbn [dict_set map fst In].
  - intuition congruence.
  - destruct (String.eqb k' k) eqn:E; cbn [map fst In].
    + apply String.eqb_eq in E. subst k'. intuition congruence.
    + rewrite IH. intuition congruence.
Qed.

Lemma dict_set_nodup {V} (k : string) (v : V) (d : dict V) :
  NoDup (map fst d) -> NoDup (map fst (dict_set k v d)).
Proof.
  induction d as [|[k' v'] d IH]; cbn [dict_set map fst]; intros H.
  - repeat constructor. intros [].
  - inversion H as [|? ? Hnin Hd]; subst.
    destruct (String.eqb k' k) eqn:E; cbn [map fst].
    + now constructor.
    + constructor; [|auto]. rewrite dict_set_keys. intros [->|Hin]; [|auto].
      now rewrite String.eqb_refl in E.
Qed.

Lemma dict_get_in {V} (k : string) (d : dict V) :
  In k (map fst d) -> exists v, dict_get k d = Some v.
Proof.
  induction d as [|[k' v'] d IH]; cbn [map fst In dict_get]; [intros []|].
  intros [->|H]; [rewrite String.eqb_refl; eauto|].
  destruct (String.eqb k' k); eauto.
Qed.

Lemma dict_get_some_in {V} (k : string) (v : V) (d : dict V) :
  dict_get k d = Some v -> In (k, v) d.
Proof.
  induction d as [|[k' v'] d IH]; cbn [dict_get]; [discriminate|].
  destruct (String.eqb k' k) eqn:E; intros H.
  - apply String.eqb_eq in E. inversion H; subst. now left.
  - right. auto.
Qed.

(** ** The records of a run *)

Lemma assemble_step_some (d : dict payload.t) (lg : list log_record)
      (n cc : string) (r : list string) :
  get_course_code n = Some cc ->
  assemble_step (d, lg) (n, r) = (dict_set cc (build_payload cc n r) d, lg).
Proof.
  intros H. unfold assemble_step.
  now rewrite H, (get_course_code_truthy _ _ H).
Qed.

Lemma assemble_step_none (d : dict payload.t) (lg : list log_record)
      (n : string) (r : list string) :
  get_course_code n = None -> fst (assemble_step (d, lg) (n, r)) = d.
Proof. intros H. unfold assemble_step. now rewrite H. Qed.

Lemma returned_extract (text : list string) (filename_prefix : string)
      (save_tsv : bool) :
  returned (extract text filename_prefix save_tsv)
  = fst (fold_left assemble_step (pairs_of text) ([], [])).
Proof.
  unfold extract, pairs_of. destruct (segment text) as [cn cd]. cbn [fst snd].
  destruct (fold_left assemble_step (combine cn cd) ([], [])) as [d lg].
  now destruct save_tsv.
Qed.

(** Where the entries of the dictionary come from. *)
Lemma assemble_entries (all : list (string * list string)) :
  forall pairs acc,
    incl pairs all ->
    (NoDup (map fst (fst acc)) /\
     forall k v, In (k, v) (fst acc) ->
       exists n r, In (n, r) all /\ get_course_code n = Some k /\
                   v = build_payload k n r) ->
    NoDup (map fst (fst (fold_left assemble_step pairs acc))) /\
    forall k v, In (k, v) (fst (fold_left assemble_step pairs acc)) ->
      exists n r, In (n, r) all /\ get_course_code n = Some k /\
                  v = build_payload k n r.
Proof.
  induction pairs as [|[n r] pairs IH]; intros [d lg] Hincl Hacc;
    [exact Hacc|].
  cbn [fold_left]. apply IH; [intros p Hp; apply Hincl; now right|].
  destruct Hacc as [Hnd Hall]. cbn [fst] in *.
  destruct (get_course_code n) as [cc|] eqn:E.
  - rewrite (assemble_step_some _ _ _ _ _ E). cbn [fst].
    split; [now apply dict_set_nodup|].
    intros k v Hin. apply dict_set_in in Hin as [[-> ->]|Hin]; [|auto].
    exists n, r. repeat split; auto. apply Hincl. now left.
  - rewrite (assemble_step_none _ lg _ r E). auto.
Qed.

(** X5.  Every record is filed under its own course code, a text of two to four
    capitals and four digits; it is built from a recorded header carrying
    that code and from the segment paired with it; and no code is listed
    twice. *)
Theorem records_keyed_by_code (text : list string) (filename_prefix : string)
        (save_tsv : bool) :
  NoDup (map fst (returned (extract text filename_prefix save_tsv))) /\
  forall k v,
    In (k, v) (returned (extract text filename_prefix save_tsv)) ->
    payload.course_code v = k /\ code_shape k /\
    exists n r,
      In (n, r) (pairs_of text) /\ get_course_code n = Some k /\
      v = build_payload k n r.
Proof.
  rewrite returned_extract.
  destruct (assemble_entries (pairs_of text) (pairs_of text) ([], []))
    as [Hnd Hall].
  - apply incl_refl.
  - split; [constructor | intros k v []].
  - split; [exact Hnd|]. intros k v Hin.
    destruct (Hall k v Hin) as (n & r & Hp & Hc & ->).
    split; [reflexivity|]. split; [|eauto].
    now apply get_course_code_inv in Hc as (_ & _ & _ & Hc).
Qed.

Lemma assemble_lookup (cc : string) (pairs : list (string * list string)) :
  forall d lg,
    dict_get cc (fst (fold_left assemble_step pairs (d, lg))) =
    match last_with_code cc pairs with
    | Some (n, r) => Some (build_payload cc n r)
    | None => dict_get cc d
    end.
Proof.
  induction pairs as [|[n r] pairs IH]; intros d lg; [reflexivity|].
  cbn [fold_left last_with_code].
  destruct (assemble_step (d, lg) (n, r)) as [d' lg'] eqn:Es.
  rewrite IH. destruct (last_with_code cc pairs) as [[n' r']|]; [reflexivity|].
  unfold has_code. destruct (get_course_code n) as [c|] eqn:E.
  - rewrite (assemble_step_some _ _ _ _ _ E) in Es. inversion Es; subst d' lg'.
    destruct (String.eqb c cc) eqn:Ec.
    + apply String.eqb_eq in Ec. subst c. apply dict_get_set_same.
    + apply String.eqb_neq in Ec. apply dict_get_set_other. congruence.
  - pose proof (assemble_step_none d lg n r E) as Hd.
    rewrite Es in Hd. cbn [fst] in Hd. now subst d'.
Qed.

(** X4.  When several headers carry the same code the last one wins: looking a
    code up in the returned dictionary gives the record built from the last
    header with that code and its segment, and nothing when no recorded
    header has it. *)
Theorem last_header_wins (text : list string) (filename_prefix : string)
        (save_tsv : bool) (cc : string) :
  dict_get cc (returned (extract text filename_prefix save_tsv)) =
  match last_with_code cc (pairs_of text) with
  | Some (n, r) => Some (build_payload cc n r)
  | None => None
  end.
Proof. rewrite returned_extract. apply assemble_lookup. Qed.

Lemma segment_lengths (text : list string) :
  List.length (fst (segment text)) <= List.length (snd (segment text)).
Proof.
  pose proof (seg_loop_inv text [] seg_init (conj eq_refl eq_refl)) as H.
  unfold segment, seg_inv in *. cbn [fst snd].
  rewrite length_app. cbn [List.length].
  destruct (cn_list (seg_loop seg_init text)); cbn [List.length] in *; lia.
Qed.

Lemma in_combine_exists {A B} (l : list A) :
  forall (l' : list B) x,
    List.length l <= List.length l' -> In x l ->
    exists y, In (x, y) (combine l l').
Proof.
  induction l as [|a l IH]; intros l' x Hlen Hin; [destruct Hin|].
  destruct l' as [|b l']; cbn [List.length] in Hlen; [lia|].
  destruct Hin as [->|Hin].
  - exists b. now left.
  - destruct (IH l' x) as [y Hy]; [lia | exact Hin|].
    exists y. now right.
Qed.

Lemma last_with_code_found (cc : string) (pairs : list (string * list string)) :
  forall n r,
    In (n, r) pairs -> get_course_code n = Some cc ->
    exists n' r',
      last_with_code cc pairs = Some (n', r') /\ In (n', r') pairs /\
      get_course_code n' = Some cc.
Proof.
  induction pairs as [|[n0 r0] pairs IH]; intros n r Hin Hc; [destruct Hin|].
  cbn [last_with_code].
  destruct (last_with_code cc pairs) as [[n1 r1]|] eqn:E.
  - assert (H1 : exists n' r', Some (n1, r1) = Some (n', r') /\
                               In (n', r') pairs /\
                               get_course_code n' = Some cc).
    { clear IH Hin. revert n1 r1 E.
      induction pairs as [|[a b] ps IHp]; intros n1 r1 E; [discriminate|].
      cbn [last_with_code] in E.
      destruct (last_with_code cc ps) as [[a' b']|] eqn:E'.
      - inversion E; subst. destruct (IHp _ _ eq_refl) as (x & y & Hx & Hy & Hz).
        inversion Hx; subst. exists x, y. repeat split; auto. now right.
      - unfold has_code in E. destruct (get_course_code a) as [c|] eqn:Ea;
          [|discriminate].
        destruct (String.eqb c cc) eqn:Ec; [|discriminate].
        apply String.eqb_eq in Ec. subst c. inversion E; subst.
        exists n1, r1. repeat split; auto. now left. }
    destruct H1 as (x & y & Hx & Hy & Hz). exists x, y.
    repeat split; auto. now right.
  - destruct Hin as [Hin|Hin].
    + inversion Hin; subst n0 r0. unfold has_code.
      rewrite Hc, String.eqb_refl. exists n, r. repeat split; auto. now left.
    + destruct (IH n r Hin Hc) as (x & y & Hx & _). discriminate.
Qed.

Lemma header_pair (text : list string) (n : string) :
  In n (fst (segment text)) ->
  exists code r,
    get_course_code n = Some code /\ In (n, r) (pairs_of text).
Proof.
  intros Hin.
  pose proof (segment_names text) as Hnames.
  rewrite Forall_forall in Hnames.
  destruct (name_line_code n (Hnames n Hin)) as (code & Hc & _).
  destruct (in_combine_exists _ (snd (segment text)) n
              (segment_lengths text) Hin) as [r Hr].
  eauto.
Qed.

(** X3.  No recorded header is dropped: each one holds a course code, and the
    returned dictionary has a record under that code, built from a recorded
    header with that code and the segment paired with it. *)
Theorem every_header_recorded (text : list string) (filename_prefix : string)
        (save_tsv : bool) (n : string) :
  In n (fst (segment text)) ->
  exists code n' r,
    get_course_code n = Some code /\
    In (n', r) (pairs_of text) /\ get_course_code n' = Some code /\
    dict_get code (returned (extract text filename_prefix save_tsv))
    = Some (build_payload code n' r).
Proof.
  intros Hin.
  destruct (header_pair text n Hin) as (code & r & Hc & Hr).
  destruct (last_with_code_found code (pairs_of text) n r Hr Hc)
    as (n' & r' & Hl & Hin' & Hc').
  exists code, n', r'. repeat split; auto.
  now rewrite returned_extract, assemble_lookup, Hl.
Qed.

Lemma every_header_recorded_witness :
  exists code n' r,
    get_course_code "ACCT1013 PRINCIPLES OF ACCOUNTING" = Some code /\
    In (n', r) (pairs_of scenario_A) /\ get_course_code n' = Some code /\
    dict_get code (returned (extract scenario_A "cd" false))
    = Some (build_payload code n' r).
Proof.
  apply (every_header_recorded scenario_A "cd" false
           "ACCT1013 PRINCIPLES OF ACCOUNTING").
  left. reflexivity.
Defined.

(** X6.  No run logs anything but INFO records: every recorded header is a
    course-name line and so holds a code, and the warning of line 186 is
    never issued. *)
Theorem extract_logs_info_only (text : list string) (filename_prefix : string)
        (save_tsv : bool) :
  Forall (fun n => is_course_name_line n = true) (fst (segment text)) /\
  Forall (fun r => fst r = INFO) (log (extract text filename_prefix save_tsv)).
Proof.
  split; [apply segment_names|].
  rewrite extract_log. apply Forall_app. split;
    [|destruct save_tsv]; repeat constructor.
Qed.

Lemma first_name_line (text : list string) :
  no_name_lines text = false ->
  exists before h rest,
    text = before ++ h :: rest /\ no_name_lines before = true /\
    is_course_name_line h = true.
Proof.
  induction text as [|l text IH]; [discriminate|].
  cbn [no_name_lines forallb]. intros H.
  destruct (is_course_name_line l) eqn:El.
  - exists [], l, text. auto.
  - cbn [negb andb] in H. destruct (IH H) as (b & h & rest & -> & Hb & Hh).
    exists (l :: b), h, rest. repeat split; auto.
    cbn [no_name_lines forallb]. now rewrite El.
Qed.

Lemma segment_first_header (before rest : list string) (h : string) :
  no_name_lines before = true -> is_course_name_line h = true ->
  exists more, fst (segment (before ++ h :: rest)) = h :: more.
Proof.
  intros Hb Hh. unfold segment. cbn [fst].
  rewrite seg_loop_app, (seg_loop_no_name before) by assumption.
  rewrite seg_loop_cons, seg_step_header; auto.
  - cbn [cn_list seg_init app].
    match goal with |- context [seg_loop ?s rest] =>
      destruct (seg_loop_cn_grows rest s) as [more ->] end.
    cbn [cn_list app]. eauto.
  - cbn [new_flag seg_init]. now destruct (existsb any_marker before).
Qed.

(** X2.  A run returns no record exactly when no line of the text is a
    course-name line: the first course-name line of a text always opens a
    course. *)
Theorem no_record_iff_no_name_line (text : list string)
        (filename_prefix : string) (save_tsv : bool) :
  returned (extract text filename_prefix save_tsv) = [] <->
  no_name_lines text = true.
Proof.
  split.
  - intros Hret. destruct (no_name_lines text) eqn:E; [reflexivity|].
    destruct (first_name_line text E) as (b & h & rest & -> & Hb & Hh).
    destruct (segment_first_header b rest h Hb Hh) as [more Hseg].
    destruct (header_pair (b ++ h :: rest) h) as (code & r & Hc & Hr).
    { rewrite Hseg. now left. }
    destruct (last_with_code_found code _ h r Hr Hc) as (n' & r' & Hl & _).
    assert (Hg : dict_get code
                   (returned (extract (b ++ h :: rest) filename_prefix save_tsv))
                 = Some (build_payload code n' r'))
      by now rewrite returned_extract, assemble_lookup, Hl.
    rewrite Hret in Hg. discriminate.
  - intros Hno. rewrite returned_extract. unfold pairs_of, segment.
    now rewrite seg_loop_no_name.
Qed.

(** ** The count of course codes *)

Lemma match_code_at_start (L D t : string) :
  all_chars is_upper L = true -> 2 <= String.length L <= 4 ->
  all_chars is_digit D = true -> String.length D = 4 ->
  matched (py_match COURSE_CODE_PATTERN (L ++ D ++ t)) = true.
Proof.
  intros HL HLn HD HDn.
  unfold py_match, COURSE_CODE_PATTERN, code_body. cbn [rmatch].
  erewrite repeat_greedy_max; [reflexivity | auto | auto | |].
  - right. destruct D as [|d D]; [discriminate|]. simpl in HD |- *.
    apply andb_prop in HD as [Hd _].
    unfold is_digit, is_upper in *.
    apply andb_prop in Hd as [_ Hd]. apply Nat.leb_le in Hd.
    apply andb_false_iff. left. apply Nat.leb_gt. lia.
  - replace 4 with (String.length D) at 1 2 by exact HDn.
    rewrite repeat_greedy_exact by exact HD. reflexivity.
Qed.

Lemma count_code_keeps (k line : string) (d : dict nat) :
  In k (map fst d) -> In k (map fst (count_code d line)).
Proof.
  intros H. unfold count_code.
  destruct (matched (py_match COURSE_CODE_PATTERN line)); [|exact H].
  destruct (py_search COURSE_CODE_PATTERN line) as [[e g]|]; [|exact H].
  destruct (group 1 g); [|exact H].
  apply dict_set_keys. now right.
Qed.

Lemma count_code_adds (k n : string) (d : dict nat) :
  is_course_name_line n = true -> get_course_code n = Some k ->
  In k (map fst (count_code d n)).
Proof.
  unfold is_course_name_line, get_course_code. intros Hn Hc.
  destruct (py_match COURSE_NAME_PATTERN n) as [[pos g]|] eqn:E;
    [|discriminate].
  apply name_line_shape in E as (L & D & rest & -> & HL & HLn & HD & HDn & _).
  unfold count_code. rewrite match_code_at_start by assumption.
  destruct (py_search COURSE_CODE_PATTERN (L ++ D ++ String " " rest))
    as [[e g']|]; [|discriminate].
  rewrite Hc. apply dict_set_keys. now left.
Qed.

Lemma fold_count_keeps (k : string) (text : list string) :
  forall d, In k (map fst d) -> In k (map fst (fold_left count_code text d)).
Proof.
  induction text as [|l text IH]; intros d H; [exact H|].
  cbn [fold_left]. apply IH, count_code_keeps, H.
Qed.

Lemma fold_count_adds (k n : string) (text : list string) :
  forall d,
    In n text -> is_course_name_line n = true -> get_course_code n = Some k ->
    In k (map fst (fold_left count_code text d)).
Proof.
  induction text as [|l text IH]; intros d Hin Hn Hc; [destruct Hin|].
  cbn [fold_left]. destruct Hin as [->|Hin].
  - apply fold_count_keeps. now apply count_code_adds.
  - now apply IH.
Qed.

Lemma seg_loop_headers_from (ls : list string) :
  forall st n,
    In n (cn_list (seg_loop st ls)) -> In n (cn_list st) \/ In n ls.
Proof.
  induction ls as [|l ls IH]; intros st n H; [now left|].
  rewrite seg_loop_cons in H. apply IH in H as [H|H]; [|right; now right].
  unfold seg_step in H.
  destruct (is_course_name_line l);
    [destruct (new_flag st =? 1) | destruct (any_marker l)];
    cbn [cn_list] in H; auto.
  apply in_app_or in H as [H|[<-|[]]]; [now left | right; now left].
Qed.

(** X7.  The codes counted for the log cover the records: every key of the
    returned dictionary is among the codes found at the start of a line,
    so a run never returns more records than the number of course codes it
    reports. *)
Theorem counted_codes_cover_records (text : list string)
        (filename_prefix : string) (save_tsv : bool) :
  incl (map fst (returned (extract text filename_prefix save_tsv)))
       (map fst (fold_left count_code text [])) /\
  List.length (returned (extract text filename_prefix save_tsv))
  <= List.length (fold_left count_code text []).
Proof.
  assert (Hincl : incl (map fst (returned (extract text filename_prefix save_tsv)))
                       (map fst (fold_left count_code text []))).
  { intros k Hk. apply in_map_iff in Hk as ([k' v] & <- & Hin). cbn [fst].
    rewrite returned_extract in Hin.
    destruct (assemble_entries (pairs_of text) (pairs_of text) ([], []))
      as [_ Hall].
    - apply incl_refl.
    - split; [constructor | intros ? ? []].
    - destruct (Hall k' v Hin) as (n & r & Hp & Hc & _).
      apply in_combine_l in Hp.
      pose proof (segment_names text) as Hnames.
      rewrite Forall_forall in Hnames.
      apply (fold_count_adds k' n); auto.
      destruct (seg_loop_headers_from text seg_init n Hp) as [[]|H].
      exact H. }
  split; [exact Hincl|].
  rewrite <- (length_map fst (returned (extract text filename_prefix save_tsv))).
  rewrite <- (length_map fst (fold_left count_code text [])).
  apply NoDup_incl_length; [|exact Hincl].
  rewrite returned_extract.
  apply (assemble_entries (pairs_of text) (pairs_of text) ([], []));
    [apply incl_refl | split; [constructor | intros ? ? []]].
Qed.

Lemma records_keyed_by_code_aux (text : list string) :
  forall k v,
    In (k, v) (fst (fold_left assemble_step (pairs_of text) ([], []))) ->
    payload.course_code v = k.
Proof.
  intros k v Hin.
  destruct (assemble_entries (pairs_of text) (pairs_of text) ([], []))
    as [_ Hall].
  - apply incl_refl.
  - split; [constructor | intros ? ? []].
  - now destruct (Hall k v Hin) as (n & r & _ & _ & ->).
Qed.

(** ** The rows written *)

(** X8.  With [save_tsv] set, the two files list the same course codes in the
    same order, one row per record after the header row, the order being
    that of the returned dictionary; without it no rows are written. *)
Theorem tsv_rows_follow_records (text : list string) (filename_prefix : string) :
  (exists rows1 rows2,
     records_tsv (extract text filename_prefix true) =
       Some ((filename_prefix ++ "-records.tsv")%string,
             [Some "course_code"; Some "course_name"; Some "prerequisite";
              Some "unit"] :: rows1) /\
     description_tsv (extract text filename_prefix true) =
       Some ((filename_prefix ++ "-description.tsv")%string,
             [Some "course_code"; Some "course_description"] :: rows2) /\
     map (hd None) rows1 =
       map (fun kv => Some (fst kv)) (returned (extract text filename_prefix true))
     /\
     map (hd None) rows2 =
       map (fun kv => Some (fst kv)) (returned (extract text filename_prefix true)))
  /\ records_tsv (extract text filename_prefix false) = None
  /\ description_tsv (extract text filename_prefix false) = None.
Proof.
  pose proof (records_keyed_by_code_aux text) as Hkeys.
  unfold extract. unfold pairs_of in Hkeys.
  destruct (segment text) as [cn cd]. cbn [fst snd] in Hkeys.
  destruct (fold_left assemble_step (combine cn cd) ([], [])) as [d lg].
  cbn [fst] in Hkeys. cbn [records_tsv description_tsv returned].
  split; [|split; reflexivity].
  eexists. eexists. split; [reflexivity|]. split; [reflexivity|].
  rewrite !map_map. split; [|reflexivity].
  apply map_ext_in. intros [k v] Hin. cbn [records_row hd fst snd].
  now rewrite (Hkeys k v Hin).
Qed.

(** ** No line is lost *)

Lemma seg_step_permutation (seen : list string) (st : seg_state) (l : string) :
  Permutation seen
    (cn_list st ++ List.concat (cd_list st) ++ temp_c_list st) ->
  Permutation (seen ++ [l])
    (cn_list (seg_step st l) ++ List.concat (cd_list (seg_step st l))
       ++ temp_c_list (seg_step st l)).
Proof.
  intros H.
  assert (Hbuf : Permutation (seen ++ [l])
                   (cn_list st ++ List.concat (cd_list st)
                      ++ temp_c_list st ++ [l])).
  { rewrite !app_assoc. apply Permutation_app_tail.
    now rewrite <- !app_assoc. }
  assert (Hhead : Permutation (seen ++ [l])
                    ((cn_list st ++ [l]) ++ List.concat (cd_list st)
                       ++ temp_c_list st)).
  { rewrite <- app_assoc. cbn [app].
    transitivity (l :: seen); [symmetry; apply Permutation_cons_append|].
    transitivity (l :: cn_list st ++ List.concat (cd_list st) ++ temp_c_list st);
      [now constructor | apply Permutation_middle]. }
  unfold seg_step.
  destruct (is_course_name_line l);
    [destruct (new_flag st =? 1) | destruct (any_marker l)];
    cbn [cn_list cd_list temp_c_list]; auto.
  destruct (cn_list st) as [|n ns] eqn:E; [exact Hhead|].
  rewrite concat_app. cbn [List.concat]. now rewrite !app_nil_r.
Qed.

Lemma seg_loop_permutation (ls : list string) :
  forall seen st,
    Permutation seen
      (cn_list st ++ List.concat (cd_list st) ++ temp_c_list st) ->
    Permutation (seen ++ ls)
      (cn_list (seg_loop st ls) ++ List.concat (cd_list (seg_loop st ls))
         ++ temp_c_list (seg_loop st ls)).
Proof.
  induction ls as [|l ls IH]; intros seen st H.
  - now rewrite app_nil_r.
  - rewrite seg_loop_cons.
    replace (seen ++ l :: ls) with ((seen ++ [l]) ++ ls)
      by now rewrite <- app_assoc.
    apply IH, seg_step_permutation, H.
Qed.

(** X1.  The segmenter loses and invents no line: the recorded headers together
    with the lines of all the segments are the lines of the text, each as
    often as it occurs there. *)
Theorem segment_keeps_every_line (text : list string) :
  Permutation text
    (fst (segment text) ++ List.concat (snd (segment text))) /\
  List.length text =
    List.length (fst (segment text))
    + List.length (List.concat (snd (segment text))).
Proof.
  assert (H : Permutation text
                (fst (segment text) ++ List.concat (snd (segment text)))).
  { unfold segment. cbn [fst snd]. rewrite concat_app. cbn [List.concat].
    rewrite app_nil_r.
    apply (seg_loop_permutation text [] seg_init). constructor. }
  split; [exact H|].
  rewrite (Permutation_length H). apply length_app.
Qed.

(** ** Reading the lines *)

Lemma in_PRINTABLE_spec (c : ascii) : in_PRINTABLE c = printable_ascii c.
Proof.
  destruct c as [[] [] [] [] [] [] [] []]; vm_compute; reflexivity.
Qed.

Lemma printable_space (c : ascii) :
  printable_ascii c = true -> space_or_no_space c = true.
Proof.
  destruct c as [[] [] [] [] [] [] [] []]; vm_compute; auto.
Qed.

Lemma filter_chars_all p (s : string) : all_chars p (filter_chars p s) = true.
Proof.
  induction s as [|c s IH]; [reflexivity|].
  cbn [filter_chars]. destruct (p c) eqn:E; [|exact IH].
  cbn [all_chars]. now rewrite E, IH.
Qed.

Lemma filter_chars_ext p q (s : string) :
  (forall c, p c = q c) -> filter_chars p s = filter_chars q s.
Proof.
  intros H. induction s as [|c s IH]; [reflexivity|].
  cbn [filter_chars]. now rewrite H, IH.
Qed.

Lemma in_skipn_in {A} (n : nat) (l : list A) (x : A) :
  In x (skipn n l) -> In x l.
Proof.
  intros H. rewrite <- (firstn_skipn n l). apply in_or_app. now right.
Qed.

(** X19.  Every line [extract] works on holds only the characters from the space
    to the tilde: no tab, line break or form feed is left, so the only
    white space [strip] and the patterns can meet in it is the space. *)
Theorem read_lines_printable (pages : list string) (line : string) :
  In line (read_lines pages) ->
  all_chars printable_ascii line = true /\
  all_chars space_or_no_space line = true.
Proof.
  unfold read_lines. intros H. apply in_skipn_in in H.
  apply in_map_iff in H as (raw & <- & _).
  assert (Hp : all_chars printable_ascii (filter_chars in_PRINTABLE raw) = true).
  { rewrite (filter_chars_ext _ _ raw in_PRINTABLE_spec).
    apply filter_chars_all. }
  split; [exact Hp|].
  apply (all_chars_weaken printable_ascii); auto using printable_space.
Qed.

Lemma read_lines_printable_witness :
  all_chars printable_ascii "ACCT1013 XY" = true /\
  all_chars space_or_no_space "ACCT1013 XY" = true.
Proof.
  apply (read_lines_printable
           [String "010" (String "010" (String "010" (String "010"
              (String "010" (String "010"
                 ("ACCT1013 X" ++ String "009" "Y"))))))]
           "ACCT1013 XY").
  left. reflexivity.
Defined.

Lemma split_length (c : ascii) (s : string) :
  List.length (split c s) = S (count_char c s).
Proof.
  induction s as [|x s IH]; [reflexivity|].
  cbn [split count_char]. destruct (Ascii.eqb x c).
  - cbn [List.length]. now rewrite IH.
  - destruct (split c s) as [|h t]; [discriminate IH|].
    cbn [List.length] in *. lia.
Qed.

(** X20.  The number of lines read is the number of line breaks in the joined
    page texts, less five; with five line breaks or fewer nothing is
    read. *)
Theorem read_lines_length (pages : list string) :
  List.length (read_lines pages) =
  count_char "010" (join (String "012" EmptyString) pages) - 5.
Proof.
  unfold read_lines, SKIP_LINES.
  rewrite length_skipn, length_map, split_length. lia.
Qed.

(** ** File names *)

Lemma rfind_none (c : ascii) (s : string) :
  all_chars (fun x => negb (Ascii.eqb x c)) s = true -> rfind c s = None.
Proof.
  induction s as [|x s IH]; [reflexivity|].
  cbn [all_chars rfind]. intros H. apply andb_prop in H as [Hx Hs].
  rewrite (IH Hs). apply negb_true_iff in Hx. now rewrite Hx.
Qed.

Lemma rfind_last (c : ascii) (a b : string) :
  all_chars (fun x => negb (Ascii.eqb x c)) b = true ->
  rfind c (a ++ String c b) = Some (String.length a).
Proof.
  intros Hb. induction a as [|x a IH]; cbn [append rfind String.length].
  - now rewrite (rfind_none c b Hb), Ascii.eqb_refl.
  - now rewrite IH.
Qed.

Lemma drop_chars_app (a b : string) : drop_chars (String.length a) (a ++ b) = b.
Proof. induction a as [|x a IH]; [now destruct b | exact IH]. Qed.

Lemma take_chars_app (a b : string) : take_chars (String.length a) (a ++ b) = a.
Proof.
  induction a as [|x a IH]; [now destruct b|].
  cbn [String.length append take_chars]. now rewrite IH.
Qed.

Lemma basename_plain (name : string) :
  all_chars not_slash name = true -> basename name = name.
Proof. intros H. unfold basename. now rewrite (rfind_none "/" name H). Qed.

Lemma basename_dir (dir name : string) :
  all_chars not_slash name = true ->
  basename (dir ++ String "/" name) = name.
Proof.
  intros H. unfold basename. rewrite (rfind_last "/" dir name H).
  replace (S (String.length dir)) with (String.length (dir ++ "/"))
    by (rewrite length_append; simpl; lia).
  replace (dir ++ String "/" name)%string with ((dir ++ "/") ++ name)%string
    by now rewrite append_assoc.
  apply drop_chars_app.
Qed.

Lemma splitext_root (x : ascii) (stem ext : string) :
  Ascii.eqb x "." = false ->
  all_chars not_slash (String x stem ++ String "." ext) = true ->
  all_chars not_dot ext = true ->
  fst (splitext (String x stem ++ String "." ext)) = String x stem.
Proof.
  intros Hx Hs Hd. unfold splitext.
  rewrite (rfind_none "/" _ Hs), (rfind_last "." (String x stem) ext Hd).
  cbn [Nat.leb andb String.length Nat.sub has_name_before_dot].
  assert (E : slice 0 1 (String x stem ++ String "." ext) = String x EmptyString).
  { unfold slice. cbn [append Nat.sub substring].
    now destruct (stem ++ String "." ext)%string. }
  rewrite E. cbn [String.eqb]. rewrite Hx. cbn [negb fst].
  apply (take_chars_app (String x stem)).
Qed.

(** X22.  The prefix made from a file name: for a path whose last component is a
    root (not starting with a dot), a dot and an extension without dots,
    the directory and the extension are dropped, and so is a leading [cd-]
    of the root; dots inside the root stay. *)
Theorem extract_filename_prefix_path (dir stem ext : string) (x : ascii) :
  Ascii.eqb x "." = false ->
  all_chars not_slash (String x stem) = true ->
  all_chars not_slash ext = true ->
  all_chars not_dot ext = true ->
  let root := String x stem in
  let expected := if prefix "cd-" root then drop_chars 3 root else root in
  extract_filename_prefix (root ++ String "." ext) = expected /\
  extract_filename_prefix (dir ++ String "/" (root ++ String "." ext))
  = expected.
Proof.
  intros Hx Hroot Hext Hdot root expected.
  assert (Hname : all_chars not_slash (root ++ String "." ext) = true).
  { rewrite all_chars_app. subst root. rewrite Hroot. cbn [all_chars andb].
    now rewrite Hext. }
  unfold extract_filename_prefix.
  rewrite basename_dir, basename_plain by exact Hname.
  subst root. rewrite splitext_root by assumption. split; reflexivity.
Qed.

Lemma extract_filename_prefix_path_witness :
  extract_filename_prefix "cd-acct.2024.pdf" = "acct.2024" /\
  extract_filename_prefix "assets/v1.2/cd-acct.2024.pdf" = "acct.2024".
Proof.
  apply (extract_filename_prefix_path "assets/v1.2" "d-acct.2024" "pdf" "c");
    reflexivity.
Defined.

(** ** A whole run *)

(** X21.  The first six lines are always skipped: when the page texts hold five
    line breaks or fewer, [main] parses no line and returns no record,
    whatever the pages say. *)
Theorem main_short_document (pages : list string) (pdf_filename : string)
        (args_prefix : option string) (args_tsv : bool) :
  count_char "010" (join (String "012" EmptyString) pages) <= 5 ->
  read_lines pages = [] /\
  returned (main pages pdf_filename args_prefix args_tsv) = [].
Proof.
  intros H.
  assert (E : read_lines pages = []).
  { apply length_zero_iff_nil. unfold read_lines, SKIP_LINES.
    rewrite length_skipn, length_map, split_length. lia. }
  split; [exact E|].
  unfold main. rewrite E. rewrite returned_extract. reflexivity.
Qed.

Lemma main_short_document_witness :
  read_lines ["COURSE CATALOGUE"; "ACCT1013 PRINCIPLES OF ACCOUNTING"] = [] /\
  returned (main ["COURSE CATALOGUE"; "ACCT1013 PRINCIPLES OF ACCOUNTING"]
              "cd-acct.pdf" None true) = [].
Proof.
  apply (main_short_document
           ["COURSE CATALOGUE"; "ACCT1013 PRINCIPLES OF ACCOUNTING"]
           "cd-acct.pdf" None true).
  vm_compute. lia.
Defined.

(** ** A header built from a code and a title *)

Lemma replace_from_skip (old new a : string) :
  forall b, replace_from old new (String.length a) (a ++ b)
            = replace_from old new 0 b.
Proof.
  induction a as [|x a IH]; intros b; [reflexivity|].
  cbn [String.length append replace_from]. apply IH.
Qed.

Lemma prefix_contains (m s : string) :
  prefix m s = true -> contains m s = true.
Proof. intros H. destruct s; cbn [contains]; now rewrite H. Qed.

Lemma replace_from_absent (old new s : string) :
  contains old s = false -> replace_from old new 0 s = s.
Proof.
  induction s as [|x s IH]; [reflexivity|].
  cbn [contains replace_from]. intros H.
  apply orb_false_elim in H as [Hp Hs]. cbn [prefix] in *.
  rewrite Hp. now rewrite (IH Hs).
Qed.

Lemma replace_at_start (old rest : string) :
  truthy old = true -> contains old rest = false ->
  replace old "" (old ++ rest) = rest.
Proof.
  intros Ht Hc. destruct old as [|o old]; [discriminate|].
  unfold replace. cbn [append replace_from].
  change (String o (old ++ rest)) with (String o old ++ rest)%string.
  rewrite prefix_self_app. cbn [append String.length Nat.sub].
  rewrite Nat.sub_0_r, replace_from_skip. now apply replace_from_absent.
Qed.

(** X10.  A header made of a course code, a space and a title gives the code
    back; when the title does not hold the code again and the first raw
    line holds a parenthesis (the unit line), the course name is the title,
    trimmed. *)
Theorem header_round_trip (code title line : string)
        (course_raw : list string) :
  code_shape code ->
  contains code (String " " title) = false ->
  contains "(" line = true ->
  get_course_code (code ++ String " " title) = Some code /\
  get_course_name (code ++ String " " title) (line :: course_raw)
  = strip title.
Proof.
  intros (L & D & -> & HL & HLn & HD & HDn) Hc Hp.
  assert (E : get_course_code ((L ++ D) ++ String " " title)
              = Some (L ++ D)%string).
  { rewrite append_assoc. now apply search_code_at_start. }
  split; [exact E|].
  unfold get_course_name, hanging_course_name. rewrite E.
  rewrite (get_course_code_truthy _ _ E).
  rewrite replace_at_start by eauto using get_course_code_truthy.
  cbn [hanging_loop]. rewrite Hp. cbn [app join String.concat].
  rewrite strip_idempotent. reflexivity.
Qed.

Lemma header_round_trip_witness :
  get_course_code ("ACCT1013" ++ String " " "PRINCIPLES OF ACCOUNTING ")
  = Some "ACCT1013" /\
  get_course_name ("ACCT1013" ++ String " " "PRINCIPLES OF ACCOUNTING ")
    ("(3 units)" :: ["Pre-requisite(s): None"])
  = strip "PRINCIPLES OF ACCOUNTING ".
Proof.
  apply (header_round_trip "ACCT1013" "PRINCIPLES OF ACCOUNTING " "(3 units)"
           ["Pre-requisite(s): None"]).
  - exists "ACCT", "1013". repeat split; (reflexivity || simpl; lia).
  - reflexivity.
  - reflexivity.
Defined.

(** ** Unit lines *)

(** A greedy quantifier succeeds as soon as the rest can be matched after
    some run of characters of its class. *)
Lemma repeat_greedy_succeeds {R} p (a : string) :
  forall t lo pos g (k : cont R),
    all_chars p a = true -> lo <= String.length a ->
    (exists r, k t (pos + String.length a) g = Some r) ->
    exists r', repeat_greedy p lo None (a ++ t) pos g k = Some r'.
Proof.
  induction a as [|c a IH]; intros t lo pos g k Ha Hlo [r Hk].
  - cbn [String.length] in *. assert (lo = 0) as -> by lia.
    rewrite Nat.add_0_r in Hk. cbn [append].
    destruct t as [|c t]; cbn [repeat_greedy Nat.eqb]; [eauto|].
    destruct (may_take None && p c); [|eauto].
    destruct (repeat_greedy p (pred 0) (dec_hi None) t (S pos) g k); eauto.
  - cbn [all_chars] in Ha. apply andb_prop in Ha as [Hc Ha].
    cbn [append repeat_greedy may_take dec_hi String.length] in *.
    rewrite Hc. cbn [andb].
    destruct (IH t (pred lo) (S pos) g k Ha) as [r' ->]; [lia | |eauto].
    exists r. now rewrite Nat.add_succ_r in Hk.
Qed.

(** X13.  A line that, trimmed, reads: opening parenthesis, one digit, any white
    space, [unit], any text without a line break, closing parenthesis, is a
    unit line: at the head of a segment it gives that digit as the unit. *)
Theorem unit_line_recognised (line ws body : string) (d : ascii)
        (rest : list string) :
  is_digit d = true ->
  all_chars is_space ws = true ->
  all_chars Dot body = true ->
  strip line = String "(" (String d (ws ++ "unit" ++ body ++ ")")) ->
  get_course_unit (line :: rest) = Some (String d EmptyString).
Proof.
  intros Hd Hws Hbody Hline.
  cbn [get_course_unit]. rewrite Hline.
  assert (Hm : exists r,
             py_match UNIT_PATTERN
               (String "(" (String d (ws ++ "unit" ++ body ++ ")"))) = Some r).
  { unfold py_match, UNIT_PATTERN, Chr. cbn [rmatch].
    rewrite Ascii.eqb_refl.
    cbn [repeat_greedy may_take andb Nat.eqb dec_hi pred]. rewrite Hd.
    through_match.
    assert (Hone : forall (s : string) pos g (k : cont (nat * groups)),
               repeat_greedy is_digit 0 (Some 0) s pos g k = k s pos g)
      by (intros [|c s] pos g k; reflexivity).
    rewrite Hone.
    apply (repeat_greedy_succeeds is_space ws); [exact Hws | lia |].
    cbn [Lit Chr rmatch append]. rewrite !Ascii.eqb_refl.
    through_match.
    apply (repeat_greedy_succeeds Dot body); [exact Hbody | lia |].
    rewrite Ascii.eqb_refl. unfold done. eauto. }
  destruct Hm as [r ->]. cbn [matched]. unfold slice. cbn [Nat.sub substring].
  now destruct (ws ++ "unit" ++ body ++ ")")%string.
Qed.

Lemma unit_line_recognised_witness :
  get_course_unit ("  (3  units, lecture) " :: ["Pre-requisite(s): None"])
  = Some "3".
Proof.
  apply (unit_line_recognised "  (3  units, lecture) " "  " "s, lecture" "3"
           ["Pre-requisite(s): None"]); reflexivity.
Defined.
